(** * dnspin: pinning host names in /etc/hosts

    A shallow embedding of [dnspin.go] (package [main] of
    github.com/nyaruka/dnspin) and the properties of its hosts-file
    merge-and-rewrite engine.

    Go strings are byte sequences: they are modelled by [string], whose
    characters are the 256 byte values.  The map [current_mappings] is a
    [gmap string string].  The file system, the DNS client and the
    failures of the system calls are explicit arguments. *)

From Stdlib Require Import NArith ZArith Ascii String Lia.
From stdpp Require Import strings gmap pretty.

Local Open Scope N_scope.

(** ** The parts of the Go library the program calls *)

Module Go.

(** The numeric value of a byte. *)
Definition byte (c : ascii) : N := N_of_ascii c.

Definition char (n : N) : ascii := ascii_of_N n.

Definition TAB : string := String (char 9) "".
Definition LF : string := String (char 10) "".
Definition CR : ascii := char 13.

(** [strings.HasPrefix(s, prefix)]. *)
Fixpoint HasPrefix (s prefix : string) {struct prefix} : bool :=
  match prefix, s with
  | EmptyString, _ => true
  | String p prefix', String c s' =>
      if decide (c = p) then HasPrefix s' prefix' else false
  | String _ _, EmptyString => false
  end.

(** The six white-space bytes of ASCII:
    ['\t'], ['\n'], ['\v'], ['\f'], ['\r'] and [' ']. *)
Definition asciiSpace (b : N) : bool :=
  (b =? 9) || (b =? 10) || (b =? 11) || (b =? 12) || (b =? 13) || (b =? 32).

(** [unicode.IsSpace] beyond ASCII holds of U+0085, U+00A0, U+1680,
    U+2000..U+200A, U+2028, U+2029, U+202F, U+205F and U+3000.  Their
    UTF-8 encodings, by first byte: *)
Definition space2 (b1 b2 : N) : bool :=
  (b1 =? 194) && ((b2 =? 133) || (b2 =? 160)).

Definition space3 (b1 b2 b3 : N) : bool :=
  ((b1 =? 225) && (b2 =? 154) && (b3 =? 128))
  || ((b1 =? 226) && (b2 =? 128)
      && (((128 <=? b3) && (b3 <=? 138))
          || (b3 =? 168) || (b3 =? 169) || (b3 =? 175)))
  || ((b1 =? 226) && (b2 =? 129) && (b3 =? 159))
  || ((b1 =? 227) && (b2 =? 128) && (b3 =? 128)).

(** The number of bytes of the white-space character encoded at the head
    of [s], and [0] when [s] does not start with one.  No encoding of a
    white-space character starts with a continuation byte (128..191) and
    the decoder of Go consumes, besides the first byte of a character,
    continuation bytes only: a white-space character of the string is
    found at exactly the positions where this function is positive. *)
Definition space_width (s : string) : nat :=
  match s with
  | EmptyString => 0%nat
  | String c1 r1 =>
      if asciiSpace (byte c1) then 1%nat
      else
        match r1 with
        | EmptyString => 0%nat
        | String c2 r2 =>
            if space2 (byte c1) (byte c2) then 2%nat
            else
              match r2 with
              | EmptyString => 0%nat
              | String c3 _ =>
                  if space3 (byte c1) (byte c2) (byte c3) then 3%nat
                  else 0%nat
              end
        end
  end.

(** A field under construction, closed into the list of fields. *)
Definition close_field (cur : option string) : list string :=
  match cur with
  | Some f => [f]
  | None => []
  end.

Definition push_byte (cur : option string) (c : ascii) : option string :=
  match cur with
  | Some f => Some (f +:+ String c "")
  | None => Some (String c "")
  end.

(** The walk of [strings.Fields] over the bytes of its argument:
    [skip] counts the bytes still to pass of a white-space character of
    several bytes, [cur] is the field being read, if any. *)
Fixpoint fields_from (s : string) (skip : nat) (cur : option string)
  : list string :=
  match s with
  | EmptyString => close_field cur
  | String c r =>
      match skip with
      | S k => fields_from r k cur
      | O =>
          match space_width s with
          | O => fields_from r 0 (push_byte cur c)
          | S k => close_field cur ++ fields_from r k None
          end
      end
  end.

(** [strings.Fields(s)]: the maximal runs of non-white-space characters
    of [s], in order. *)
Definition Fields (s : string) : list string := fields_from s 0 None.

(** [bufio.MaxScanTokenSize]. *)
Definition MaxScanTokenSize : N := 64 * 1024.

(** A line of that many bytes or more (before its newline) does not fit
    the buffer of a [bufio.Scanner]: [Scan] then returns false. *)
Definition too_long (raw : string) : bool :=
  MaxScanTokenSize <=? N.of_nat (String.length raw).

(** [dropCR] of [bufio]: one carriage return at the end is dropped. *)
Fixpoint dropCR (raw : string) : string :=
  match raw with
  | EmptyString => EmptyString
  | String c EmptyString => if decide (c = CR) then EmptyString else raw
  | String c r => String c (dropCR r)
  end.

(** The lines that the loop [for scanner.Scan() { line := scanner.Text() }]
    sees on a reader holding [data], for a scanner with the default split
    function [bufio.ScanLines]; [cur] is the text read since the last
    newline.  The loop ends at the end of the data or at a line that is
    too long; the program does not check [scanner.Err()]. *)
Fixpoint scan_from (data cur : string) : list string :=
  match data with
  | EmptyString =>
      match cur with
      | EmptyString => []
      | _ => if too_long cur then [] else [dropCR cur]
      end
  | String c r =>
      if decide (byte c = 10) then
        if too_long cur then [] else dropCR cur :: scan_from r ""
      else scan_from r (cur +:+ String c "")
  end.

Definition ScanLines (data : string) : list string := scan_from data "".

(** The writer [w] of [writeHostsFile] receives text through
    [fmt.Fprintln] and [fmt.Fprintf], one call per line, the newline last:
    it is modelled by the list of the lines written so far. *)
Definition writer := list string.

(** [fmt.Fprintln(w, line)]. *)
Definition Fprintln (w : writer) (line : string) : writer := w ++ [line].

(** The bytes that have been written to [w]. *)
Fixpoint bytes_of (w : writer) : string :=
  match w with
  | [] => ""
  | line :: rest => line +:+ LF +:+ bytes_of rest
  end.

(** The values of the interface [error] that the program can meet: the
    ones it makes with [errors.New], the ones of the system calls (the
    operation and its paths) and the ones of the DNS client. *)
Inductive error :=
  | errors_New (text : string)
  | PathError (op path : string)
  | LinkError (op old new : string)
  | dns_error (text : string).

End Go.

Import Go.

(** ** dnspin.go *)

Record host_config := mk_host_config {
  hostname : string;
  dns_server : string;
  ip_address : string
}.

Definition NIL : string := "NIL".
Definition ERROR : string := "ERROR".
Definition MISSING : string := "MISSING".

Definition DNSPIN_BEGIN : string := "### DNSPIN BEGIN ###".
Definition DNSPIN_END : string := "### DNSPIN END #####".

(** The three values of the variable [location]
    (the constants 0, 1 and 2 of the source). *)
Inductive pin_location := PRE_PIN | IN_PIN | POST_PIN.

(** *** lookupIP *)

(** What the program reads of a resource record of the answer section:
    whether it is an A record, and then the text [a.A.String()] of its
    address. *)
Inductive RR :=
  | RR_A (A_String : string)
  | RR_other.

(** The outcome of [c.Exchange(&m, server+":53")] for the question
    [dns.Fqdn(host)] of type A: the answer section of the reply, or an
    error.  The network is a function of the host and of the address of
    the server. *)
Inductive exchange :=
  | Reply (Answer : list RR)
  | Failed (err : error).

Definition dns_client := string → string → exchange.

(** The loop over [r.Answer]: the first A record returns. *)
Fixpoint first_A (Answer : list RR) : option string :=
  match Answer with
  | [] => None
  | RR_A a :: _ => Some a
  | RR_other :: rest => first_A rest
  end.

Definition lookupIP (c : dns_client) (host server : string)
  : string * option error :=
  match c host (server +:+ ":53") with
  | Failed err => ("", Some err)
  | Reply Answer =>
      match first_A Answer with
      | Some a => (a, None)
      | None => (MISSING, None)
      end
  end.

(** *** The file system *)

Record file := mk_file { data : string; mode : N }.

(** The files that the process can open, by path. *)
Abbreviation filesys := (gmap string file).

Definition os_Open (fs : filesys) (name : string) : string + error :=
  match fs !! name with
  | Some f => inl (data f)
  | None => inr (PathError "open" name)
  end.

(** *** loadHostConfig *)

(** The type [int] of Go has 64 bits on the platforms of the program:
    the value of an [int] that holds the number [z]. *)
Definition int (z : Z) : Z := ((z + 2 ^ 63) mod 2 ^ 64 - 2 ^ 63)%Z.

Definition config_error (lineno : Z) (line : string) : error :=
  errors_New ("Unexpected input on line " +:+ pretty lineno +:+ ": " +:+ line).

(** The loop of [loadHostConfig] over the lines of the file, from the
    values of [lineno] and [hosts] before the line. *)
Fixpoint load_lines (lines : list string) (lineno : Z)
    (hosts : list host_config) : list host_config * option error :=
  match lines with
  | [] => (hosts, None)
  | line :: rest =>
      let lineno := int (lineno + 1) in
      if bool_decide (0 < String.length line)%nat && negb (HasPrefix line "#")
      then
        match Fields line with
        | [f0; f1] =>
            load_lines rest lineno (hosts ++ [mk_host_config f0 f1 NIL])
        | _ => (hosts, Some (config_error lineno line))
        end
      else load_lines rest lineno hosts
  end.

Definition loadHostConfig (fs : filesys) (filename : string)
  : list host_config * option error :=
  match os_Open fs filename with
  | inr err => ([], Some err)
  | inl text => load_lines (ScanLines text) 0 []
  end.

(** *** writeHostsFile *)

(** The variables of the first loop of [writeHostsFile]. *)
Record regions := mk_regions {
  location : pin_location;
  pre_lines : list string;
  pin_lines : list string;
  post_lines : list string
}.

Definition regions_init : regions := mk_regions PRE_PIN [] [] [].

(** The body of the first loop, for one line of /etc/hosts.  In the state
    [POST_PIN] the source assigns [append(post_lines, line)] to
    [pin_lines]: [post_lines] keeps its length, zero, and [pin_lines]
    becomes the one line. *)
Definition scan_line (st : regions) (line : string) : regions :=
  if decide (line = DNSPIN_BEGIN) then
    mk_regions IN_PIN (pre_lines st) (pin_lines st) (post_lines st)
  else if decide (line = DNSPIN_END) then
    mk_regions POST_PIN (pre_lines st) (pin_lines st) (post_lines st)
  else
    match location st with
    | PRE_PIN =>
        mk_regions (location st) (pre_lines st ++ [line]) (pin_lines st)
          (post_lines st)
    | IN_PIN =>
        if negb (HasPrefix line "#") then
          mk_regions (location st) (pre_lines st) (pin_lines st ++ [line])
            (post_lines st)
        else st
    | POST_PIN =>
        mk_regions (location st) (pre_lines st) (post_lines st ++ [line])
          (post_lines st)
    end.

Definition scan_regions (lines : list string) : regions :=
  fold_left scan_line lines regions_init.

(** The body of the second loop: a line of two fields is a mapping. *)
Definition parse_line (current_mappings : gmap string string) (line : string)
  : gmap string string :=
  match Fields line with
  | [f0; f1] => <[f1 := f0]> current_mappings
  | _ => current_mappings
  end.

Definition parse_mappings (pin_lines : list string) : gmap string string :=
  fold_left parse_line pin_lines ∅.

(** The test of the third loop on one host. *)
Definition host_changed (current_mappings : gmap string string)
    (host : host_config) : bool :=
  match current_mappings !! hostname host with
  | None => true
  | Some ip => bool_decide (ip ≠ ip_address host)
  end.

(** The third loop, from the value of [needs_rewrite] before it. *)
Fixpoint check_hosts (current_mappings : gmap string string)
    (hosts : list host_config) (needs_rewrite : bool) : bool :=
  match hosts with
  | [] => needs_rewrite
  | host :: rest =>
      if host_changed current_mappings host then true
      else check_hosts current_mappings rest needs_rewrite
  end.

Definition needs_rewrite (current_mappings : gmap string string)
    (hosts : list host_config) : bool :=
  check_hosts current_mappings hosts
    (bool_decide (size current_mappings ≠ length hosts)).

Definition cached_comment (host : host_config) : string :=
  "# " +:+ hostname host +:+ ": cached value, error during lookup to "
  +:+ dns_server host.

Definition error_comment (host : host_config) : string :=
  "# " +:+ hostname host +:+ ": error during lookup to " +:+ dns_server host.

Definition mapping_line (ip host : string) : string := ip +:+ TAB +:+ host.

(** The body of the loop that writes the entries. *)
Definition write_host (current_mappings : gmap string string) (w : writer)
    (host : host_config) : writer :=
  if decide (ip_address host = ERROR) then
    match current_mappings !! hostname host with
    | Some ip =>
        Fprintln (Fprintln w (cached_comment host))
          (mapping_line ip (hostname host))
    | None => Fprintln w (error_comment host)
    end
  else if decide (ip_address host ≠ MISSING) then
    Fprintln w (mapping_line (ip_address host) (hostname host))
  else w.

(** All that is written to the temporary file, in order. *)
Definition write_all (r : regions) (current_mappings : gmap string string)
    (hosts : list host_config) : writer :=
  let w := fold_left Fprintln (pre_lines r) [] in
  let w := Fprintln w DNSPIN_BEGIN in
  let w := fold_left (write_host current_mappings) hosts w in
  let w := Fprintln w DNSPIN_END in
  fold_left Fprintln (post_lines r) w.

(** What the system calls of one run of [writeHostsFile] do: the suffix
    that [ioutil.TempFile] draws for the name of the file it creates
    ([None] when it creates none), and which of the later calls fail; a
    failing write leaves the first [k] bytes in the file. *)
Record syscalls := mk_syscalls {
  temp_suffix : option string;
  chmod_fails : bool;
  write_fails : option nat;
  rename_fails : bool;
  remove_fails : bool
}.

(** [ioutil.TempFile(dir, prefix)]: a new file, empty, of mode 0600. *)
Definition ioutil_TempFile (sys : syscalls) (fs : filesys)
    (dir prefix : string) : string * filesys + error :=
  match temp_suffix sys with
  | None => inr (PathError "open" (dir +:+ "/" +:+ prefix))
  | Some suffix =>
      let name := dir +:+ "/" +:+ prefix +:+ suffix in
      match fs !! name with
      | Some _ => inr (PathError "open" name)
      | None => inl (name, <[name := mk_file "" 384]> fs)
      end
  end.

Definition Chmod (sys : syscalls) (fs : filesys) (name : string) (perm : N)
  : filesys + error :=
  if chmod_fails sys then inr (PathError "chmod" name)
  else inl (alter (λ f, mk_file (data f) perm) name fs).

(** The writes through the buffered writer, up to [w.Flush()]. *)
Definition Flush (sys : syscalls) (fs : filesys) (name : string) (w : writer)
  : filesys * option error :=
  match write_fails sys with
  | Some k =>
      (alter (λ f, mk_file (String.substring 0 k (bytes_of w)) (mode f))
         name fs,
       Some (PathError "write" name))
  | None => (alter (λ f, mk_file (bytes_of w) (mode f)) name fs, None)
  end.

Definition os_Rename (sys : syscalls) (fs : filesys) (old new : string)
  : filesys + error :=
  if rename_fails sys then inr (LinkError "rename" old new)
  else
    match fs !! old with
    | Some f => inl (<[new := f]> (delete old fs))
    | None => inr (LinkError "rename" old new)
    end.

(** [os.Remove(name)], as the deferred call uses it: its error is
    dropped. *)
Definition os_Remove (sys : syscalls) (fs : filesys) (name : string)
  : filesys :=
  if remove_fails sys then fs else delete name fs.

Definition writeHostsFile (sys : syscalls) (fs : filesys)
    (hosts : list host_config) : (bool * option error) * filesys :=
  match os_Open fs "/etc/hosts" with
  | inr err => ((false, Some err), fs)
  | inl text =>
      let r := scan_regions (ScanLines text) in
      let current_mappings := parse_mappings (pin_lines r) in
      if negb (needs_rewrite current_mappings hosts) then ((false, None), fs)
      else
        match ioutil_TempFile sys fs "/tmp" "hosts" with
        | inr err => ((false, Some err), fs)
        | inl (out, fs) =>
            (* defer out.Close(); defer os.Remove(out.Name()) *)
            let deferred res fs := (res, os_Remove sys fs out) in
            match Chmod sys fs out 420 with
            | inr err => deferred (false, Some err) fs
            | inl fs =>
                let w := write_all r current_mappings hosts in
                match Flush sys fs out w with
                | (fs, Some err) => deferred (false, Some err) fs
                | (fs, None) =>
                    match os_Rename sys fs out "/etc/hosts" with
                    | inr err => deferred (false, Some err) fs
                    | inl fs => deferred (true, None) fs
                    end
                end
            end
        end
  end.

(** *** main *)

(** The body of the loop of [main] over the hosts. *)
Definition resolve (c : dns_client) (host : host_config) : host_config :=
  match lookupIP c (hostname host) (dns_server host) with
  | (_, Some _) => mk_host_config (hostname host) (dns_server host) ERROR
  | (ip, None) => mk_host_config (hostname host) (dns_server host) ip
  end.

(** One turn of the endless loop of [main], the sleep apart. *)
Definition cycle (c : dns_client) (sys : syscalls) (fs : filesys)
    (hosts : list host_config)
  : list host_config * ((bool * option error) * filesys) :=
  let hosts := map (resolve c) hosts in
  (hosts, writeHostsFile sys fs hosts).

(** ** Notions used in the statements *)

(** The result of the last lookup of a host, as [main] and
    [writeHostsFile] read the field [ip_address]. *)
Inductive ResolutionResult :=
  | Unset
  | Resolved (ip : string)
  | NoRecord
  | LookupFailed.

Definition last_result (host : host_config) : ResolutionResult :=
  if decide (ip_address host = NIL) then Unset
  else if decide (ip_address host = ERROR) then LookupFailed
  else if decide (ip_address host = MISSING) then NoRecord
  else Resolved (ip_address host).

(** Whether a white-space character occurs in [s]. *)
Fixpoint has_space (s : string) : bool :=
  match s with
  | EmptyString => false
  | String _ r => bool_decide (space_width s ≠ 0%nat) || has_space r
  end.

(** A text that [strings.Fields] can return as a field. *)
Definition token (s : string) : Prop := s ≠ "" ∧ has_space s = false.

(** A host whose lookup gave an address, with the name and the address
    that a configuration file and an A record can give: tokens, the
    address not starting like a comment. *)
Definition resolved_entry (host : host_config) : Prop :=
  last_result host = Resolved (ip_address host)
  ∧ token (hostname host)
  ∧ token (ip_address host)
  ∧ HasPrefix (ip_address host) "#" = false.

(** The lines that the loop over the hosts writes. *)
Definition entries (current_mappings : gmap string string)
    (hosts : list host_config) : list string :=
  fold_left (write_host current_mappings) hosts [].

(** The mapping from host names to addresses that a list of hosts holds,
    a later entry of a name replacing an earlier one. *)
Definition mapping_of (hosts : list host_config) : gmap string string :=
  fold_left (λ m host, <[hostname host := ip_address host]> m) hosts ∅.

Definition sentinel (line : string) : Prop :=
  line = DNSPIN_BEGIN ∨ line = DNSPIN_END.

(** The lines of a configuration file that [loadHostConfig] passes over. *)
Definition skipped (line : string) : bool :=
  bool_decide (line = "") || HasPrefix line "#".

(** The entry that a line of two fields configures. *)
Definition entry_of (line : string) : option host_config :=
  match Fields line with
  | [f0; f1] => Some (mk_host_config f0 f1 NIL)
  | _ => None
  end.

(** The entries of the lines that are not passed over. *)
Definition entries_of (lines : list string) : list host_config :=
  omap entry_of (filter (λ line, skipped line = false) lines).

(** A path below the directory [dir]. *)
Definition below (dir path : string) : bool := HasPrefix path (dir +:+ "/").

(** Every system call of a run succeeds, the temporary file being
    [name]. *)
Definition succeeds (sys : syscalls) (fs : filesys) (name : string) : Prop :=
  (∃ suffix, temp_suffix sys = Some suffix
             ∧ name = "/tmp/hosts" +:+ suffix)
  ∧ fs !! name = None
  ∧ chmod_fails sys = false
  ∧ write_fails sys = None
  ∧ rename_fails sys = false.

(** The run creates the temporary file [name] and a later call fails. *)
Definition fails_after_create (sys : syscalls) (fs : filesys)
    (name : string) : Prop :=
  (∃ suffix, temp_suffix sys = Some suffix
             ∧ name = "/tmp/hosts" +:+ suffix)
  ∧ fs !! name = None
  ∧ (chmod_fails sys = true ∨ write_fails sys ≠ None
     ∨ rename_fails sys = true).

(** The regions and the mappings that [writeHostsFile] reads from the
    text of /etc/hosts. *)
Definition read_regions (text : string) : regions :=
  scan_regions (ScanLines text).

Definition read_mappings (text : string) : gmap string string :=
  parse_mappings (pin_lines (read_regions text)).

(** No sentinel line is held in the three sequences. *)
Definition sentinel_free (r : regions) : Prop :=
  Forall (λ l, ¬ sentinel l) (pre_lines r)
  ∧ Forall (λ l, ¬ sentinel l) (pin_lines r)
  ∧ Forall (λ l, ¬ sentinel l) (post_lines r).

(** Whether the byte [c] occurs in [s]. *)
Fixpoint occurs (c : ascii) (s : string) : bool :=
  match s with
  | EmptyString => false
  | String x r => bool_decide (x = c) || occurs c r
  end.

(** A line that the scanner reads back as it was written: it holds no
    newline, does not end with a carriage return and fits the buffer. *)
Definition stable_line (l : string) : Prop :=
  occurs (char 10) l = false ∧ dropCR l = l ∧ too_long l = false.

(** Whether a white-space character starts in [f] when [rest] follows
    it. *)
Fixpoint space_before (f rest : string) : bool :=
  match f with
  | EmptyString => false
  | String _ r =>
      bool_decide (space_width (f +:+ rest) ≠ 0%nat) || space_before r rest
  end.

(** The state of the walk of [strings.Fields] is sound before [s]: no
    field is open while a white-space character is passed, and an open
    field is not empty and holds no white space up to [s]. *)
Definition walk_ok (s : string) (skip : nat) (cur : option string) : Prop :=
  match cur with
  | None => True
  | Some f => skip = 0%nat ∧ f ≠ "" ∧ space_before f s = false
  end.

(** The name and the server of a host are fields. *)
Definition host_fields (host : host_config) : Prop :=
  token (hostname host) ∧ token (dns_server host).

(** The address that the loop over the hosts writes in a mapping line
    for a host, if it writes one. *)
Definition persisted (m : gmap string string) (host : host_config)
  : option string :=
  if decide (ip_address host = ERROR) then m !! hostname host
  else if decide (ip_address host ≠ MISSING) then Some (ip_address host)
  else None.

(** The name of the host and the address written for it are fields, and
    the address does not start like a comment. *)
Definition writable (m : gmap string string) (host : host_config) : Prop :=
  token (hostname host)
  ∧ ∀ ip, persisted m host = Some ip → token ip ∧ HasPrefix ip "#" = false.

(** The mapping of the names of the hosts to the addresses written for
    them. *)
Definition persisted_map (m : gmap string string) (hosts : list host_config)
  : gmap string string :=
  fold_left (λ acc host,
               match persisted m host with
               | Some ip => <[hostname host := ip]> acc
               | None => acc
               end) hosts ∅.

(** ** Sample runs *)

(** System calls that all succeed. *)
Definition ok_sys (suffix : string) : syscalls :=
  mk_syscalls (Some suffix) false None false false.

(** A hosts file with one line before an empty managed region and one
    line after it. *)
Definition hosts_with_post : filesys :=
  {[ "/etc/hosts" :=
       mk_file (bytes_of ["127.0.0.1 localhost"; DNSPIN_BEGIN; DNSPIN_END;
                          "10.1.1.1 printer"]) 420 ]}.

Definition api_host : host_config :=
  mk_host_config "api.internal" "10.0.0.53" "203.0.113.5".


(** A host whose lookup failed, one without a record, and the mapping
    that a former run left for both. *)
Definition failed_host : host_config :=
  mk_host_config "a" "10.0.0.53" ERROR.

Definition missing_host : host_config :=
  mk_host_config "gone.internal" "10.0.0.53" MISSING.

Definition former_mappings : gmap string string :=
  {[ "a" := "10.0.0.1"; "gone.internal" := "10.0.0.2" ]}.

(** Hosts whose addresses are empty, or start like a comment. *)
Definition odd_hosts : list host_config :=
  [mk_host_config "a" "10.0.0.53" "#10.0.0.1"].

Definition empty_hosts : list host_config :=
  [mk_host_config "a" "10.0.0.53" ""].

(** Three servers: one that cannot be reached, one without an A record
    for the name, one that answers a CNAME record and two A records. *)
Definition dead_server : dns_client :=
  λ _ _, Failed (dns_error "i/o timeout").

Definition empty_server : dns_client := λ _ _, Reply [RR_other].

Definition good_server : dns_client :=
  λ _ _, Reply [RR_other; RR_A "203.0.113.5"; RR_A "203.0.113.6"].

(** A configuration file with a comment, an empty line, an entry and a
    line of three fields. *)
Definition sample_conf : filesys :=
  {[ "dnspin.conf" :=
       mk_file (bytes_of ["# pinned hosts"; ""; "api.internal 10.0.0.53";
                          "db.internal 10.0.0.53 extra"]) 420 ]}.

(** A hosts file without a managed region, and one whose managed region
    pins the sample host. *)
Definition plain_hosts : filesys :=
  {[ "/etc/hosts" := mk_file (bytes_of ["127.0.0.1 localhost"]) 420 ]}.

Definition pinned_hosts : filesys :=
  {[ "/etc/hosts" :=
       mk_file (bytes_of ["127.0.0.1 localhost"; DNSPIN_BEGIN;
                          mapping_line "203.0.113.5" "api.internal";
                          DNSPIN_END]) 420 ]}.

(** The sample host as [loadHostConfig] returns it. *)
Definition unset_host : host_config :=
  mk_host_config "api.internal" "10.0.0.53" NIL.

(** System calls of which the renaming and the removal fail. *)
Definition stuck_sys : syscalls :=
  mk_syscalls (Some "123") false None true true.

(** System calls of which the change of mode fails. *)
Definition chmod_sys : syscalls :=
  mk_syscalls (Some "123") true None false false.

(** The sample configuration file without its comment and its empty
    line. *)
Definition bare_conf : filesys :=
  {[ "dnspin.conf" :=
       mk_file (bytes_of ["api.internal 10.0.0.53";
                          "db.internal 10.0.0.53 extra"]) 420 ]}.

(** A file system with the hosts file and a file of the user. *)
Definition home_fs : filesys :=
  {[ "/etc/hosts" := mk_file (bytes_of ["127.0.0.1 localhost"]) 420;
     "/home/user/notes" := mk_file "keep" 384 ]}.

(** A line of 65536 bytes, and a configuration file that holds it
    between two entries. *)
Definition long_line : string :=
  string_of_list_ascii (repeat "x"%char (N.to_nat MaxScanTokenSize)).

Definition long_conf : filesys :=
  {[ "dnspin.conf" :=
       mk_file (bytes_of (["api.internal 10.0.0.53"]
                          ++ long_line :: ["db.internal 10.0.0.53"])) 420 ]}.

Definition short_conf : filesys :=
  {[ "dnspin.conf" := mk_file (bytes_of ["api.internal 10.0.0.53"]) 420 ]}.

(** Three hosts: one resolved, one whose lookup failed, one without a
    record. *)
Definition three_hosts : list host_config :=
  [api_host; failed_host; missing_host].

(** The sample host configured twice. *)
Definition twice_hosts : list host_config := [api_host; api_host].

(** A hosts file whose one line is the end sentinel followed by two
    carriage returns. *)
Definition cr_hosts : filesys :=
  {[ "/etc/hosts" :=
       mk_file (DNSPIN_END +:+ String CR (String CR "") +:+ LF) 420 ]}.

(** A configuration file with a line of white space only, and one with
    a line of 65536 bytes followed by a line of three fields. *)
Definition white_conf : filesys :=
  {[ "dnspin.conf" :=
       mk_file (bytes_of ["api.internal 10.0.0.53"; "  "]) 420 ]}.

Definition long_bad_conf : filesys :=
  {[ "dnspin.conf" :=
       mk_file (bytes_of (["api.internal 10.0.0.53"]
                          ++ long_line :: ["db.internal 10.0.0.53 extra"]))
         420 ]}.

(** A hosts file whose managed region pins the host [a], with one line
    after the region, and the same file without that line. *)
Definition pinned_a_with_post : filesys :=
  {[ "/etc/hosts" :=
       mk_file (bytes_of ["127.0.0.1 localhost"; DNSPIN_BEGIN;
                          mapping_line "10.0.0.1" "a"; DNSPIN_END;
                          "10.1.1.1 printer"]) 420 ]}.

Definition pinned_a : filesys :=
  {[ "/etc/hosts" :=
       mk_file (bytes_of ["127.0.0.1 localhost"; DNSPIN_BEGIN;
                          mapping_line "10.0.0.1" "a"; DNSPIN_END]) 420 ]}.

(** ** Properties *)

(** *** Strings *)

Lemma append_nil_l (s : string) : "" +:+ s = s.
Proof. reflexivity. Qed.

Lemma append_cons c (a b : string) : String c a +:+ b = String c (a +:+ b).
Proof. reflexivity. Qed.

Lemma append_nil_r (s : string) : s +:+ "" = s.
Proof.
  induction s as [|c s IH]; [done|]. by rewrite append_cons, IH.
Qed.

Lemma append_assoc (a b c : string) : (a +:+ b) +:+ c = a +:+ (b +:+ c).
Proof.
  induction a as [|x a IH]; [done|]. by rewrite !append_cons, IH.
Qed.

Lemma byte_TAB : byte (char 9) = 9.
Proof. reflexivity. Qed.

(** A byte of ASCII after the text does not complete a white-space
    character that the text leaves open. *)
Lemma space_width_app c a rest :
  (rest = "" ∨ ∃ t r, rest = String t r ∧ byte t < 128) →
  space_width (String c (a +:+ rest)) = space_width (String c a).
Proof.
  intros Hrest.
  assert (Hs2 : ∀ b t, t < 128 → space2 b t = false).
  { intros b t Ht. unfold space2.
    replace (t =? 133) with false by (symmetry; apply N.eqb_neq; lia).
    replace (t =? 160) with false by (symmetry; apply N.eqb_neq; lia).
    by rewrite andb_false_r. }
  assert (Hs3 : ∀ b1 b2 t, t < 128 → space3 b1 b2 t = false).
  { intros b1 b2 t Ht. unfold space3.
    replace (t =? 128) with false by (symmetry; apply N.eqb_neq; lia).
    replace (128 <=? t) with false by (symmetry; apply N.leb_gt; lia).
    replace (t =? 168) with false by (symmetry; apply N.eqb_neq; lia).
    replace (t =? 169) with false by (symmetry; apply N.eqb_neq; lia).
    replace (t =? 175) with false by (symmetry; apply N.eqb_neq; lia).
    replace (t =? 159) with false by (symmetry; apply N.eqb_neq; lia).
    by rewrite !andb_false_r. }
  assert (Hs3' : ∀ b1 t b3, t < 128 → space3 b1 t b3 = false).
  { intros b1 t b3 Ht. unfold space3.
    replace (t =? 154) with false by (symmetry; apply N.eqb_neq; lia).
    replace (t =? 128) with false by (symmetry; apply N.eqb_neq; lia).
    replace (t =? 129) with false by (symmetry; apply N.eqb_neq; lia).
    by rewrite !andb_false_r. }
  destruct a as [|c2 [|c3 a]]; rewrite ?append_cons, ?append_nil_l; simpl.
  - destruct Hrest as [->|(t & r & -> & Ht)]; simpl; [done|].
    destruct (asciiSpace (byte c)); [done|].
    rewrite Hs2 by done. destruct r; [done|]. by rewrite Hs3'.
  - destruct Hrest as [->|(t & r & -> & Ht)]; simpl; [done|].
    destruct (asciiSpace (byte c)); [done|].
    destruct (space2 (byte c) (byte c2)); [done|]. by rewrite Hs3.
  - done.
Qed.

Lemma fields_from_cons c r cur :
  fields_from (String c r) 0 cur =
  match space_width (String c r) with
  | O => fields_from r 0 (push_byte cur c)
  | S k => close_field cur ++ fields_from r k None
  end.
Proof. reflexivity. Qed.

Lemma has_space_cons c a :
  has_space (String c a) = false →
  space_width (String c a) = 0%nat ∧ has_space a = false.
Proof.
  intros H. change (has_space (String c a))
    with (bool_decide (space_width (String c a) ≠ 0%nat) || has_space a) in H.
  apply orb_false_iff in H as [H1 H2]. split; [|done].
  apply bool_decide_eq_false in H1.
  by destruct (decide (space_width (String c a) = 0%nat)).
Qed.

(** The walk of [strings.Fields] over a text without white space keeps
    it whole in the field being read. *)
Lemma fields_from_no_space a rest cur :
  a ≠ "" → has_space a = false →
  (rest = "" ∨ ∃ t r, rest = String t r ∧ byte t < 128) →
  fields_from (a +:+ rest) 0 cur =
  fields_from rest 0 (Some (from_option id "" cur +:+ a)).
Proof.
  intros Hne Hsp Hrest. revert cur Hne.
  induction a as [|c a IH]; intros cur Hne; [done|].
  apply has_space_cons in Hsp as [Hw Hsp].
  rewrite append_cons, fields_from_cons, (space_width_app _ _ _ Hrest), Hw.
  destruct a as [|c' a].
  - rewrite append_nil_l. by destruct cur.
  - rewrite (IH Hsp) by done. do 2 f_equal.
    destruct cur as [f|]; simpl; [|done].
    by rewrite append_assoc.
Qed.

Lemma Fields_token a : token a → Fields a = [a].
Proof.
  intros [Hne Hsp]. unfold Fields.
  rewrite <- (append_nil_r a) at 1.
  rewrite fields_from_no_space by auto. done.
Qed.

(** A mapping line splits into its address and its name. *)
Lemma Fields_mapping_line ip name :
  token ip → token name → Fields (mapping_line ip name) = [ip; name].
Proof.
  intros [Hne1 Hsp1] [Hne2 Hsp2]. unfold Fields, mapping_line.
  rewrite fields_from_no_space; [|done|done|].
  2:{ right. exists (char 9), name. split; [done|]. by rewrite byte_TAB. }
  change (TAB +:+ name) with (String (char 9) name).
  rewrite fields_from_cons.
  change (space_width (String (char 9) name)) with 1%nat.
  simpl close_field. rewrite append_nil_l.
  rewrite <- (append_nil_r name) at 1.
  rewrite fields_from_no_space by auto. done.
Qed.

(** *** The writer *)

Lemma fold_Fprintln lines w : fold_left Fprintln lines w = w ++ lines.
Proof.
  revert w. induction lines as [|l lines IH]; intros w; simpl.
  - by rewrite app_nil_r.
  - rewrite IH. unfold Fprintln. by rewrite <- app_assoc.
Qed.

Lemma write_host_app m w host : write_host m w host = w ++ write_host m [] host.
Proof.
  unfold write_host, Fprintln.
  repeat case_decide; try destruct (m !! hostname host);
    simpl; rewrite <- ?app_assoc, ?app_nil_r; done.
Qed.

Lemma fold_write_host m hosts w :
  fold_left (write_host m) hosts w = w ++ entries m hosts.
Proof.
  unfold entries. revert w.
  induction hosts as [|h hosts IH] using rev_ind; intros w.
  - by rewrite app_nil_r.
  - rewrite !fold_left_app. simpl. rewrite IH, (write_host_app m (w ++ _)).
    rewrite (write_host_app m (fold_left _ _ _)). by rewrite app_assoc.
Qed.

Lemma entries_app m hosts1 hosts2 :
  entries m (hosts1 ++ hosts2) = entries m hosts1 ++ entries m hosts2.
Proof.
  unfold entries at 1. rewrite fold_left_app, fold_write_host. done.
Qed.

Lemma entries_cons m host hosts :
  entries m (host :: hosts) = write_host m [] host ++ entries m hosts.
Proof. apply (entries_app m [host] hosts). Qed.

(** The text of the temporary file, region by region. *)
Lemma write_all_eq r m hosts :
  write_all r m hosts =
  pre_lines r ++ [DNSPIN_BEGIN] ++ entries m hosts ++ [DNSPIN_END]
  ++ post_lines r.
Proof.
  unfold write_all, Fprintln.
  rewrite !fold_Fprintln, fold_write_host. simpl.
  by rewrite <- !app_assoc.
Qed.

(** *** The scan of /etc/hosts *)

Lemma sentinels_differ : DNSPIN_BEGIN ≠ DNSPIN_END.
Proof. discriminate. Qed.

Lemma scan_line_location st line :
  location (scan_line st line) =
  if decide (line = DNSPIN_BEGIN) then IN_PIN
  else if decide (line = DNSPIN_END) then POST_PIN
  else location st.
Proof.
  unfold scan_line. repeat case_decide; try done.
  destruct (location st) eqn:E; try done. by destruct (negb _).
Qed.

Lemma scan_line_post st line : post_lines (scan_line st line) = post_lines st.
Proof.
  unfold scan_line. repeat case_decide; try done.
  destruct (location st); try done. by destruct (negb _).
Qed.

(** [post_lines] is never assigned: it is empty at the end of the scan,
    whatever the file holds. *)
Lemma scan_post lines st :
  post_lines (fold_left scan_line lines st) = post_lines st.
Proof.
  revert st. induction lines as [|l lines IH]; intros st; simpl; [done|].
  by rewrite IH, scan_line_post.
Qed.

Lemma scan_regions_post lines : post_lines (scan_regions lines) = [].
Proof. apply scan_post. Qed.

Lemma scan_line_sentinel_free st line :
  sentinel_free st → sentinel_free (scan_line st line).
Proof.
  intros (Hpre & Hpin & Hpost). unfold scan_line, sentinel_free.
  assert (∀ ls, Forall (λ l, ¬ sentinel l) ls →
            line ≠ DNSPIN_BEGIN → line ≠ DNSPIN_END →
            Forall (λ l, ¬ sentinel l) (ls ++ [line])) as Hadd.
  { intros ls Hls Hb He. apply Forall_app. split; [done|].
    apply Forall_singleton. by intros [?|?]. }
  repeat case_decide; simpl; [done..|].
  destruct (location st); simpl; [auto| |auto].
  destruct (negb _); simpl; auto.
Qed.

Lemma scan_sentinel_free lines st :
  sentinel_free st → sentinel_free (fold_left scan_line lines st).
Proof.
  revert st. induction lines as [|l lines IH]; intros st H; simpl; [done|].
  by apply IH, scan_line_sentinel_free.
Qed.

Lemma scan_regions_sentinel_free lines : sentinel_free (scan_regions lines).
Proof. apply scan_sentinel_free. by repeat split. Qed.

(** Before any sentinel, the lines go to [pre_lines]. *)
Lemma scan_pre lines pre pin post :
  Forall (λ l, ¬ sentinel l) lines →
  fold_left scan_line lines (mk_regions PRE_PIN pre pin post) =
  mk_regions PRE_PIN (pre ++ lines) pin post.
Proof.
  intros H. revert pre. induction H as [|l lines Hl _ IH]; intros pre; simpl.
  - by rewrite app_nil_r.
  - unfold scan_line at 2. unfold sentinel in Hl.
    rewrite !decide_False by tauto. simpl.
    rewrite IH. by rewrite <- app_assoc.
Qed.

(** Inside the region, the lines that are not comments go to
    [pin_lines]. *)
Lemma scan_in lines pre pin post :
  Forall (λ l, ¬ sentinel l ∧ HasPrefix l "#" = false) lines →
  fold_left scan_line lines (mk_regions IN_PIN pre pin post) =
  mk_regions IN_PIN pre (pin ++ lines) post.
Proof.
  intros H. revert pin.
  induction H as [|l lines [Hl Hc] _ IH]; intros pin; simpl.
  - by rewrite app_nil_r.
  - unfold scan_line at 2. unfold sentinel in Hl.
    rewrite !decide_False by tauto. rewrite Hc. simpl.
    rewrite IH. by rewrite <- app_assoc.
Qed.

Lemma scan_begin lines st :
  fold_left scan_line (DNSPIN_BEGIN :: lines) st
  = fold_left scan_line lines
      (mk_regions IN_PIN (pre_lines st) (pin_lines st) (post_lines st)).
Proof. reflexivity. Qed.

Lemma scan_end lines st :
  fold_left scan_line (DNSPIN_END :: lines) st
  = fold_left scan_line lines
      (mk_regions POST_PIN (pre_lines st) (pin_lines st) (post_lines st)).
Proof. reflexivity. Qed.

(** Inside the region, in general: the comments are dropped. *)
Lemma scan_in_filter lines pre pin post :
  Forall (λ l, ¬ sentinel l) lines →
  fold_left scan_line lines (mk_regions IN_PIN pre pin post) =
  mk_regions IN_PIN pre
    (pin ++ filter (λ l, HasPrefix l "#" = false) lines) post.
Proof.
  intros H. revert pin.
  induction H as [|l lines Hl _ IH]; intros pin.
  - by rewrite app_nil_r.
  - change (fold_left scan_line (l :: lines) ?st)
      with (fold_left scan_line lines (scan_line st l)).
    unfold scan_line. unfold sentinel in Hl.
    rewrite !decide_False by tauto. cbn [location pre_lines pin_lines
      post_lines].
    destruct (HasPrefix l "#") eqn:Hc; cbn [negb].
    + rewrite IH, filter_cons_False; [done|]. by rewrite Hc.
    + rewrite IH, filter_cons_True by done. by rewrite <- app_assoc.
Qed.

(** A file that ends with its one managed region: the lines before it,
    and the lines of the region that are not comments. *)
Lemma scan_single_region pre region :
  Forall (λ l, ¬ sentinel l) pre →
  Forall (λ l, ¬ sentinel l) region →
  scan_regions (pre ++ [DNSPIN_BEGIN] ++ region ++ [DNSPIN_END])
  = mk_regions POST_PIN pre
      (filter (λ l, HasPrefix l "#" = false) region) [].
Proof.
  intros Hpre Hreg. unfold scan_regions, regions_init.
  rewrite fold_left_app, scan_pre by done.
  change ([DNSPIN_BEGIN] ++ ?l) with (DNSPIN_BEGIN :: l).
  by rewrite scan_begin, fold_left_app, scan_in_filter, scan_end.
Qed.




(** Once a sentinel is read, [pre_lines] does not grow. *)
Lemma scan_after_pre lines st :
  location st ≠ PRE_PIN →
  pre_lines (fold_left scan_line lines st) = pre_lines st.
Proof.
  revert st. induction lines as [|l lines IH]; intros st Hst; [done|].
  change (fold_left scan_line (l :: lines) st)
    with (fold_left scan_line lines (scan_line st l)).
  rewrite IH.
  - unfold scan_line. repeat case_decide; try done.
    destruct (location st) eqn:E; try done. by destruct (negb _).
  - rewrite scan_line_location. repeat case_decide; done.
Qed.

(** The lines before the first sentinel are the lines kept in
    [pre_lines]. *)
Lemma scan_keeps_pre pre s rest :
  Forall (λ l, ¬ sentinel l) pre → sentinel s →
  pre_lines (scan_regions (pre ++ s :: rest)) = pre.
Proof.
  intros Hpre Hs. unfold scan_regions, regions_init.
  rewrite fold_left_app, scan_pre by done.
  change (fold_left scan_line (s :: rest) ?st)
    with (fold_left scan_line rest (scan_line st s)).
  rewrite scan_after_pre.
  - unfold scan_line. destruct Hs as [-> | ->]; done.
  - rewrite scan_line_location. destruct Hs as [-> | ->]; done.
Qed.

(** *** The lines of the entries are no sentinels *)

Lemma occurs_app c a b : occurs c (a +:+ String c b) = true.
Proof.
  induction a as [|x a IH].
  - rewrite append_nil_l. simpl. by rewrite bool_decide_eq_true_2.
  - rewrite append_cons. simpl. rewrite IH. apply orb_true_r.
Qed.

Lemma mapping_line_not_sentinel ip name : ¬ sentinel (mapping_line ip name).
Proof.
  assert (occurs (char 9) (mapping_line ip name) = true) as H
    by apply occurs_app.
  intros [E|E]; rewrite E in H; vm_compute in H; discriminate.
Qed.

Lemma comment_not_sentinel text : ¬ sentinel ("# " +:+ text).
Proof.
  change ("# " +:+ text) with (String "#" (String " " text)).
  intros [E|E]; discriminate.
Qed.

Lemma write_host_not_sentinel m host :
  Forall (λ l, ¬ sentinel l) (write_host m [] host).
Proof.
  unfold write_host, Fprintln.
  repeat case_decide; try destruct (m !! hostname host); simpl;
    repeat constructor;
    first [apply mapping_line_not_sentinel | apply comment_not_sentinel].
Qed.

Lemma entries_not_sentinel m hosts :
  Forall (λ l, ¬ sentinel l) (entries m hosts).
Proof.
  induction hosts as [|h hosts IH]; [constructor|].
  rewrite entries_cons. apply Forall_app. split; [|done].
  apply write_host_not_sentinel.
Qed.

Lemma filter_none {A} (P : A → Prop) `{∀ x, Decision (P x)} (l : list A) :
  Forall (λ x, ¬ P x) l → filter P l = [].
Proof.
  induction 1 as [|x l Hx _ IH]; [done|].
  by rewrite filter_cons_False.
Qed.

(** *** The mappings of the managed region *)

Lemma parse_mappings_snoc lines line :
  parse_mappings (lines ++ [line]) = parse_line (parse_mappings lines) line.
Proof. unfold parse_mappings. by rewrite fold_left_app. Qed.

Lemma mapping_of_snoc hosts host :
  mapping_of (hosts ++ [host]) =
  <[hostname host := ip_address host]> (mapping_of hosts).
Proof. unfold mapping_of. by rewrite fold_left_app. Qed.

Lemma resolved_not_marker host :
  last_result host = Resolved (ip_address host) →
  ip_address host ≠ ERROR ∧ ip_address host ≠ MISSING.
Proof. unfold last_result. by repeat case_decide. Qed.

Lemma write_host_resolved m host :
  last_result host = Resolved (ip_address host) →
  write_host m [] host = [mapping_line (ip_address host) (hostname host)].
Proof.
  intros [H1 H2]%resolved_not_marker. unfold write_host.
  by rewrite decide_False, decide_True.
Qed.

Lemma entries_resolved m hosts :
  Forall resolved_entry hosts →
  entries m hosts =
  map (λ h, mapping_line (ip_address h) (hostname h)) hosts.
Proof.
  induction 1 as [|h hosts (Hr & _) _ IH]; [done|].
  rewrite entries_cons, write_host_resolved, IH; done.
Qed.

Lemma mapping_line_no_comment ip name :
  ip ≠ "" → HasPrefix ip "#" = false →
  HasPrefix (mapping_line ip name) "#" = false.
Proof.
  intros Hne H. destruct ip as [|c ip]; [done|].
  unfold mapping_line. rewrite append_cons. simpl in *.
  by case_decide.
Qed.

Lemma parse_resolved hosts :
  Forall resolved_entry hosts →
  parse_mappings (map (λ h, mapping_line (ip_address h) (hostname h)) hosts)
  = mapping_of hosts.
Proof.
  induction hosts as [|h hosts IH] using rev_ind; intros H; [done|].
  apply Forall_app in H as [H1 H2%Forall_inv].
  destruct H2 as (_ & Hname & Hip & _).
  rewrite map_app. simpl.
  rewrite parse_mappings_snoc, mapping_of_snoc, (IH H1).
  unfold parse_line. by rewrite Fields_mapping_line.
Qed.

Lemma mapping_of_lookup_other hosts name :
  name ∉ map hostname hosts → mapping_of hosts !! name = None.
Proof.
  induction hosts as [|h hosts IH] using rev_ind; intros H; [done|].
  rewrite map_app in H. simpl in H.
  rewrite mapping_of_snoc, lookup_insert_ne.
  - apply IH. intros ?. apply H, elem_of_app. by left.
  - intros E. apply H, elem_of_app. right. rewrite <- E.
    by apply list_elem_of_singleton.
Qed.

(** With no name twice, the mapping of a list of hosts has one entry for
    each host, the address of the host. *)
Lemma mapping_of_NoDup hosts :
  NoDup (map hostname hosts) →
  size (mapping_of hosts) = length hosts
  ∧ ∀ host, host ∈ hosts →
      mapping_of hosts !! hostname host = Some (ip_address host).
Proof.
  induction hosts as [|h hosts IH] using rev_ind; intros H.
  - split; [done|]. by intros host ?%elem_of_nil.
  - rewrite map_app in H. simpl in H.
    apply NoDup_app in H as (H1 & H2 & _).
    assert (hostname h ∉ map hostname hosts) as Hfresh.
    { intros Hin. apply (H2 _ Hin). by apply list_elem_of_singleton. }
    destruct (IH H1) as [Hsize Hlook].
    rewrite mapping_of_snoc. split.
    + rewrite map_size_insert_None by by apply mapping_of_lookup_other.
      rewrite length_app, Hsize. simpl. lia.
    + intros host [Hin| ->%list_elem_of_singleton]%elem_of_app.
      * rewrite lookup_insert_ne; [by apply Hlook|].
        intros E. apply Hfresh. rewrite E. by apply list_elem_of_fmap_2.
      * apply lookup_insert_eq.
Qed.

(** *** The test for changes *)

Lemma check_hosts_eq m hosts b :
  check_hosts m hosts b = b || existsb (host_changed m) hosts.
Proof.
  induction hosts as [|h hosts IH]; simpl.
  - by rewrite orb_false_r.
  - destruct (host_changed m h); simpl; [by rewrite orb_true_r | done].
Qed.

Lemma host_changed_true m host :
  host_changed m host = true ↔
  m !! hostname host = None
  ∨ ∃ ip, m !! hostname host = Some ip ∧ ip ≠ ip_address host.
Proof.
  unfold host_changed. destruct (m !! hostname host) as [ip|].
  - rewrite bool_decide_eq_true. split.
    + intros H. right. by exists ip.
    + intros [?|(ip' & [= <-] & H)]; done.
  - split; [by left | done].
Qed.

(** The rule of the change detection. *)
Lemma needs_rewrite_true m hosts :
  needs_rewrite m hosts = true ↔
  size m ≠ length hosts
  ∨ ∃ host, host ∈ hosts
      ∧ (m !! hostname host = None
         ∨ ∃ ip, m !! hostname host = Some ip ∧ ip ≠ ip_address host).
Proof.
  unfold needs_rewrite. rewrite check_hosts_eq, orb_true_iff.
  rewrite bool_decide_eq_true, existsb_exists.
  split; (intros [H|(host & Hin & H)]; [by left|right]); exists host.
  - split; [by apply list_elem_of_In | by apply host_changed_true].
  - split; [by apply list_elem_of_In | by apply host_changed_true].
Qed.

(** *** The runs of writeHostsFile *)

Lemma temp_name_fresh suffix : "/tmp/hosts" +:+ suffix ≠ "/etc/hosts".
Proof.
  change ("/tmp/hosts" +:+ suffix)
    with (String "/" (String "t" ("mp/hosts" +:+ suffix))).
  discriminate.
Qed.

(** Without a change, nothing is written. *)
Lemma writeHostsFile_unchanged sys fs f hosts :
  fs !! "/etc/hosts" = Some f →
  needs_rewrite (read_mappings (data f)) hosts = false →
  writeHostsFile sys fs hosts = ((false, None), fs).
Proof.
  intros Hf Hn. unfold writeHostsFile, os_Open. rewrite Hf.
  fold (read_regions (data f)). fold (read_mappings (data f)).
  by rewrite Hn.
Qed.

(** A run that reports a write had a change to make. *)
Lemma writeHostsFile_wrote sys fs hosts :
  (writeHostsFile sys fs hosts).1.1 = true →
  ∃ f, fs !! "/etc/hosts" = Some f
       ∧ needs_rewrite (read_mappings (data f)) hosts = true.
Proof.
  unfold writeHostsFile, os_Open.
  destruct (fs !! "/etc/hosts") as [f|] eqn:Hf; [|done].
  fold (read_regions (data f)). fold (read_mappings (data f)).
  destruct (needs_rewrite _ _) eqn:Hn; [|done]. intros _. by exists f.
Qed.

(** With a change and no failure, the new text replaces the file. *)
Lemma writeHostsFile_succeeds sys fs f hosts name :
  fs !! "/etc/hosts" = Some f →
  needs_rewrite (read_mappings (data f)) hosts = true →
  succeeds sys fs name →
  writeHostsFile sys fs hosts =
  ((true, None),
   <["/etc/hosts" :=
       mk_file (bytes_of (write_all (read_regions (data f))
                            (read_mappings (data f)) hosts)) 420]> fs).
Proof.
  intros Hf Hn ((suffix & Hs & ->) & Hfresh & Hc & Hw & Hr).
  pose proof (temp_name_fresh suffix) as Hne.
  unfold writeHostsFile, os_Open. rewrite Hf.
  fold (read_regions (data f)). fold (read_mappings (data f)).
  rewrite Hn. simpl negb. cbv iota.
  unfold ioutil_TempFile. rewrite Hs.
  change ("/tmp" +:+ "/" +:+ "hosts" +:+ suffix) with ("/tmp/hosts" +:+ suffix).
  rewrite Hfresh. unfold Chmod. rewrite Hc, alter_insert_eq.
  unfold Flush. rewrite Hw, alter_insert_eq.
  unfold os_Rename. rewrite Hr, lookup_insert_eq, delete_insert_eq.
  unfold os_Remove. simpl.
  destruct (remove_fails sys); f_equal.
  - by rewrite delete_id.
  - rewrite delete_insert_ne by (by apply not_eq_sym).
    by rewrite !delete_id by (by rewrite ?lookup_delete_eq).
Qed.

(** When a call fails after the temporary file is there, the hosts file
    is as before; the deferred removal, if it does not fail, leaves the
    file system as before. *)
Lemma writeHostsFile_fails sys fs f hosts name :
  fs !! "/etc/hosts" = Some f →
  needs_rewrite (read_mappings (data f)) hosts = true →
  fails_after_create sys fs name →
  let out := writeHostsFile sys fs hosts in
  (∃ err, out.1 = (false, Some err))
  ∧ out.2 !! "/etc/hosts" = Some f
  ∧ (remove_fails sys = false → out.2 = fs).
Proof.
  intros Hf Hn ((suffix & Hs & ->) & Hfresh & Hfail).
  pose proof (temp_name_fresh suffix) as Hne.
  unfold writeHostsFile, os_Open. rewrite Hf.
  fold (read_regions (data f)). fold (read_mappings (data f)).
  rewrite Hn. simpl negb. cbv iota.
  unfold ioutil_TempFile. rewrite Hs.
  change ("/tmp" +:+ "/" +:+ "hosts" +:+ suffix) with ("/tmp/hosts" +:+ suffix).
  rewrite Hfresh. unfold Chmod, Flush, os_Rename, os_Remove.
  destruct (chmod_fails sys) eqn:Hc.
  { simpl. split; [by eexists|]. destruct (remove_fails sys); simpl.
    - split; [by rewrite lookup_insert_ne | done].
    - rewrite delete_insert_eq, delete_id by done. done. }
  rewrite alter_insert_eq.
  destruct (write_fails sys) as [k|] eqn:Hw.
  { simpl. split; [by eexists|]. destruct (remove_fails sys); simpl.
    - rewrite alter_insert_eq. split; [by rewrite lookup_insert_ne | done].
    - rewrite alter_insert_eq, delete_insert_eq, delete_id by done. done. }
  destruct (rename_fails sys) eqn:Hr; [|by destruct Hfail as [?|[?|?]]].
  simpl. split; [by eexists|]. destruct (remove_fails sys); simpl.
  - rewrite alter_insert_eq. split; [by rewrite lookup_insert_ne | done].
  - rewrite alter_insert_eq, delete_insert_eq, delete_id by done. done.
Qed.

(** *** Counting the sentinels *)

Lemma filter_eq_none (x : string) (l : list string) :
  Forall (λ y, y ≠ x) l → filter (λ y, y = x) l = [].
Proof. apply filter_none. Qed.

Lemma count_between (x y : string) (a b c : list string) :
  x ≠ y →
  Forall (λ l, l ≠ x) a → Forall (λ l, l ≠ x) b → Forall (λ l, l ≠ x) c →
  length (filter (λ l, l = x) (a ++ [x] ++ b ++ [y] ++ c)) = 1%nat
  ∧ length (filter (λ l, l = x) (a ++ [y] ++ b ++ [x] ++ c)) = 1%nat.
Proof.
  intros Hxy Ha Hb Hc.
  rewrite !filter_app.
  rewrite (filter_eq_none x a), (filter_eq_none x b), (filter_eq_none x c)
    by done.
  rewrite (filter_cons_True _ x) by done.
  rewrite (filter_cons_False _ y) by (by apply not_eq_sym).
  done.
Qed.

Lemma not_sentinel_begin ls :
  Forall (λ l, ¬ sentinel l) ls → Forall (λ l, l ≠ DNSPIN_BEGIN) ls.
Proof.
  intros Hls. eapply Forall_impl; [exact Hls|]. intros l H E. apply H. by left.
Qed.

Lemma not_sentinel_end ls :
  Forall (λ l, ¬ sentinel l) ls → Forall (λ l, l ≠ DNSPIN_END) ls.
Proof.
  intros Hls. eapply Forall_impl; [exact Hls|]. intros l H E. apply H. by right.
Qed.

(** *** What a rewrite writes *)

(** Nothing is written after the end sentinel, whatever the file held
    there. *)
Lemma write_all_ends lines m hosts :
  write_all (scan_regions lines) m hosts
  = pre_lines (scan_regions lines) ++ [DNSPIN_BEGIN] ++ entries m hosts
    ++ [DNSPIN_END].
Proof. by rewrite write_all_eq, scan_regions_post. Qed.

(** The mappings that a run reads from a file that ends with its one
    managed region are the mappings of the lines of this region that are
    not comments. *)
Lemma read_mappings_single_region text pre region :
  ScanLines text = pre ++ [DNSPIN_BEGIN] ++ region ++ [DNSPIN_END] →
  Forall (λ l, ¬ sentinel l) pre →
  Forall (λ l, ¬ sentinel l) region →
  read_mappings text
  = parse_mappings (filter (λ l, HasPrefix l "#" = false) region).
Proof.
  intros E Hpre Hreg. unfold read_mappings, read_regions.
  by rewrite E, scan_single_region.
Qed.

(** *** Reading back what was written *)

Lemma byte_inj c n : byte c = n → c = char n.
Proof. intros <-. unfold byte, char. by rewrite ascii_N_embedding. Qed.

Lemma occurs_append c a b : occurs c (a +:+ b) = occurs c a || occurs c b.
Proof.
  induction a as [|x a IH]; [done|].
  rewrite append_cons. simpl. by rewrite IH, orb_assoc.
Qed.

(** The scanner on a line without newline, its newline and the rest of
    the text. *)
Lemma scan_from_line l rest cur :
  occurs (char 10) l = false →
  scan_from (l +:+ LF +:+ rest) cur
  = if too_long (cur +:+ l) then []
    else dropCR (cur +:+ l) :: scan_from rest "".
Proof.
  revert cur. induction l as [|c l IH]; intros cur Hl.
  - rewrite append_nil_l, append_nil_r.
    by change (LF +:+ rest) with (String (char 10) rest).
  - simpl in Hl. apply orb_false_iff in Hl as [Hc Hl].
    apply bool_decide_eq_false in Hc.
    rewrite append_cons. simpl.
    rewrite decide_False by (intros E%byte_inj; done).
    rewrite (IH _ Hl). by rewrite append_assoc.
Qed.

(** The scanner reads back the lines of a text made of stable lines. *)
Lemma ScanLines_bytes_of w :
  Forall stable_line w → ScanLines (bytes_of w) = w.
Proof.
  induction 1 as [|l w (Hlf & Hcr & Hlen) _ IH]; [done|].
  unfold ScanLines. cbn [bytes_of]. rewrite scan_from_line by done.
  rewrite append_nil_l, Hlen, Hcr. f_equal. exact IH.
Qed.

(** The scanner stops at a line that does not fit its buffer. *)
Lemma ScanLines_long good long rest :
  Forall stable_line good →
  occurs (char 10) long = false → too_long long = true →
  ScanLines (bytes_of (good ++ long :: rest)) = good.
Proof.
  intros Hgood Hlf Hlong. unfold ScanLines.
  induction Hgood as [|l good (Hl & Hcr & Hlen) _ IH].
  - cbn [app bytes_of]. rewrite scan_from_line by done.
    by rewrite append_nil_l, Hlong.
  - cbn [app bytes_of]. rewrite scan_from_line by done.
    rewrite append_nil_l, Hlen, Hcr. by rewrite IH.
Qed.

(** The load of a file with such a line is the load of the lines
    before it. *)
Lemma load_long (fs : filesys) name f good long rest :
  fs !! name = Some f →
  data f = bytes_of (good ++ long :: rest) →
  Forall stable_line good →
  occurs (char 10) long = false → too_long long = true →
  loadHostConfig fs name = load_lines good 0 [].
Proof.
  intros Hf E Hgood Hlf Hlong. unfold loadHostConfig, os_Open.
  by rewrite Hf, E, ScanLines_long.
Qed.

Lemma no_space_occurs s c :
  has_space s = false → asciiSpace (byte c) = true → occurs c s = false.
Proof.
  intros Hs Hc. induction s as [|x s IH]; [done|].
  apply has_space_cons in Hs as [Hw Hs]. simpl.
  rewrite (IH Hs), orb_false_r. apply bool_decide_eq_false. intros ->.
  simpl in Hw. by rewrite Hc in Hw.
Qed.

Lemma dropCR_id s : occurs CR s = false → dropCR s = s.
Proof.
  induction s as [|c s IH]; [done|]. intros H. simpl in H.
  apply orb_false_iff in H as [Hc Hs]. apply bool_decide_eq_false in Hc.
  destruct s as [|c' s].
  - simpl. by rewrite decide_False.
  - change (dropCR (String c (String c' s)))
      with (String c (dropCR (String c' s))).
    by rewrite (IH Hs).
Qed.

(** The mapping line of a resolved host is stable when it is not too
    long. *)
Lemma mapping_line_stable ip name :
  token ip → token name → too_long (mapping_line ip name) = false →
  stable_line (mapping_line ip name).
Proof.
  intros [_ Hip] [_ Hname] Hlen. unfold mapping_line in *.
  split; [|split; [|done]].
  - rewrite !occurs_append.
    by rewrite (no_space_occurs ip), (no_space_occurs name).
  - apply dropCR_id. rewrite !occurs_append.
    by rewrite (no_space_occurs ip), (no_space_occurs name).
Qed.

(** *** The entries of one host *)

Lemma lookup_failed_marker host :
  last_result host = LookupFailed → ip_address host = ERROR.
Proof. unfold last_result. by repeat case_decide. Qed.

Lemma no_record_marker host :
  last_result host = NoRecord →
  ip_address host ≠ ERROR ∧ ip_address host = MISSING.
Proof. unfold last_result. by repeat case_decide. Qed.

(** The scan of a managed region made of the entries of resolved
    hosts. *)
Lemma scan_resolved_region pre hosts m :
  Forall (λ l, ¬ sentinel l) pre →
  Forall resolved_entry hosts →
  scan_regions (pre ++ [DNSPIN_BEGIN] ++ entries m hosts ++ [DNSPIN_END])
  = mk_regions POST_PIN pre
      (map (λ h, mapping_line (ip_address h) (hostname h)) hosts) [].
Proof.
  intros Hpre Hres. rewrite (entries_resolved _ _ Hres).
  unfold scan_regions, regions_init.
  rewrite fold_left_app, scan_pre by done.
  change ([DNSPIN_BEGIN] ++ ?l) with (DNSPIN_BEGIN :: l).
  rewrite scan_begin, fold_left_app, scan_in, scan_end; [done|].
  apply Forall_map. eapply Forall_impl; [exact Hres|].
  intros h (_ & _ & [Hne _] & Hc). split.
  - apply mapping_line_not_sentinel.
  - by apply mapping_line_no_comment.
Qed.

(** *** The configuration file *)

Lemma load_test line :
  bool_decide (0 < String.length line)%nat && negb (HasPrefix line "#")
  = negb (skipped line).
Proof.
  unfold skipped. destruct line as [|c line]; [done|].
  rewrite bool_decide_eq_true_2 by (simpl; lia).
  by rewrite bool_decide_eq_false_2.
Qed.

Lemma entries_of_skipped line lines :
  skipped line = true → entries_of (line :: lines) = entries_of lines.
Proof.
  intros H. unfold entries_of. rewrite filter_cons_False; [done|].
  by rewrite H.
Qed.

Lemma entries_of_entry line lines f0 f1 :
  skipped line = false → Fields line = [f0; f1] →
  entries_of (line :: lines)
  = mk_host_config f0 f1 NIL :: entries_of lines.
Proof.
  intros H E. unfold entries_of. rewrite filter_cons_True by done.
  simpl. unfold entry_of at 1. by rewrite E.
Qed.

Lemma load_lines_good lines lineno hosts :
  Forall (λ line, skipped line = true ∨ length (Fields line) = 2%nat) lines →
  load_lines lines lineno hosts = (hosts ++ entries_of lines, None).
Proof.
  intros H. revert lineno hosts.
  induction H as [|line lines Hok _ IH]; intros lineno hosts.
  - simpl. by rewrite app_nil_r.
  - cbn [load_lines]. rewrite load_test.
    destruct (skipped line) eqn:Hs; simpl negb; cbv iota.
    + by rewrite IH, entries_of_skipped.
    + destruct Hok as [?|Hok]; [done|].
      destruct (Fields line) as [|f0 [|f1 [|? ?]]] eqn:E; try done.
      rewrite IH, (entries_of_entry _ _ f0 f1) by done.
      by rewrite <- app_assoc.
Qed.

Lemma int_small z : (- 2 ^ 63 ≤ z < 2 ^ 63)%Z → int z = z.
Proof.
  intros H. unfold int. rewrite Z.mod_small; lia.
Qed.

Lemma load_lines_bad good bad rest lineno hosts :
  Forall (λ line, skipped line = true ∨ length (Fields line) = 2%nat) good →
  skipped bad = false → length (Fields bad) ≠ 2%nat →
  (0 ≤ lineno)%Z → (lineno + Z.of_nat (length good) + 1 < 2 ^ 63)%Z →
  load_lines (good ++ bad :: rest) lineno hosts
  = (hosts ++ entries_of good,
     Some (config_error (lineno + Z.of_nat (length good) + 1) bad)).
Proof.
  intros H Hs Hbad. revert lineno hosts.
  induction H as [|line lines Hok _ IH]; intros lineno hosts H0 Hmax.
  - cbn [app load_lines]. rewrite load_test, Hs. simpl negb. cbv iota.
    rewrite app_nil_r. simpl length in *.
    rewrite int_small by lia.
    replace (lineno + Z.of_nat 0 + 1)%Z with (lineno + 1)%Z by lia.
    by destruct (Fields bad) as [|f0 [|f1 [|? ?]]].
  - cbn [app load_lines]. rewrite load_test.
    cbn [length] in *. rewrite int_small by lia.
    replace (lineno + Z.of_nat (S (length lines)) + 1)%Z
      with (lineno + 1 + Z.of_nat (length lines) + 1)%Z by lia.
    destruct (skipped line) eqn:Hsk; simpl negb; cbv iota.
    + rewrite IH by lia. by rewrite entries_of_skipped.
    + destruct Hok as [?|Hok]; [done|].
      destruct (Fields line) as [|f0 [|f1 [|? ?]]] eqn:E; try done.
      rewrite IH by lia. rewrite (entries_of_entry _ _ f0 f1) by done.
      by rewrite <- app_assoc.
Qed.

Lemma load_lines_unset lines lineno hosts :
  Forall (λ h, ip_address h = NIL ∧ last_result h = Unset) hosts →
  Forall (λ h, ip_address h = NIL ∧ last_result h = Unset)
    (load_lines lines lineno hosts).1.
Proof.
  revert lineno hosts.
  induction lines as [|line lines IH]; intros lineno hosts H; [done|].
  cbn [load_lines].
  destruct (_ && _); [|by apply IH].
  destruct (Fields line) as [|f0 [|f1 [|? ?]]]; try done.
  apply IH, Forall_app. split; [done|]. by repeat constructor.
Qed.

(** A line of white space only is not passed over: it has no field and
    the load fails on it. *)
Lemma load_white_line :
  load_lines ["api.internal 10.0.0.53"; "  "] 0 []
  = ([mk_host_config "api.internal" "10.0.0.53" NIL],
     Some (errors_New "Unexpected input on line 2:   ")).
Proof. vm_compute. done. Qed.

(** *** Runs that change nothing *)

(** A managed region that was written for resolved hosts, with nothing
    after it, needs no rewrite for the same hosts. *)
Lemma resolved_region_unchanged pre hosts m :
  Forall (λ l, ¬ sentinel l) pre →
  Forall resolved_entry hosts →
  NoDup (map hostname hosts) →
  needs_rewrite
    (parse_mappings (pin_lines (scan_regions
       (pre ++ [DNSPIN_BEGIN] ++ entries m hosts ++ [DNSPIN_END])))) hosts
  = false.
Proof.
  intros Hpre Hres Hnd. rewrite scan_resolved_region by done. simpl pin_lines.
  rewrite parse_resolved by done.
  destruct (mapping_of_NoDup hosts Hnd) as [Hsize Hlook].
  destruct (needs_rewrite (mapping_of hosts) hosts) eqn:E; [|done].
  apply needs_rewrite_true in E
    as [E|(host & Hin & [E|(ip & E & Hne)])]; [done|..].
  - by rewrite (Hlook host Hin) in E.
  - rewrite (Hlook host Hin) in E. by injection E.
Qed.

(** A run that reports a write had a change to make and no failing
    call. *)
Lemma writeHostsFile_wrote_inv sys fs hosts :
  (writeHostsFile sys fs hosts).1.1 = true →
  ∃ f name, fs !! "/etc/hosts" = Some f
    ∧ needs_rewrite (read_mappings (data f)) hosts = true
    ∧ succeeds sys fs name.
Proof.
  unfold writeHostsFile, os_Open.
  destruct (fs !! "/etc/hosts") as [f|] eqn:Hf; [|done].
  fold (read_regions (data f)). fold (read_mappings (data f)).
  destruct (needs_rewrite _ _) eqn:Hn; [|done]. simpl negb. cbv iota.
  unfold ioutil_TempFile.
  destruct (temp_suffix sys) as [suffix|] eqn:Hs; [|done].
  change ("/tmp" +:+ "/" +:+ "hosts" +:+ suffix)
    with ("/tmp/hosts" +:+ suffix).
  destruct (fs !! ("/tmp/hosts" +:+ suffix)) eqn:Hfresh; [done|].
  unfold Chmod, Flush, os_Rename.
  destruct (chmod_fails sys) eqn:Hc; [done|].
  destruct (write_fails sys) eqn:Hw; [done|].
  destruct (rename_fails sys) eqn:Hr; [done|].
  intros _. exists f, ("/tmp/hosts" +:+ suffix).
  split; [done|]. split; [done|]. split; [by exists suffix | done].
Qed.

(** After a run that wrote the entries of resolved hosts, a run for the
    same hosts writes nothing, when the lines kept from the file and the
    mapping lines are read back as they are written. *)
Lemma second_run_unchanged sys sys' fs f hosts :
  fs !! "/etc/hosts" = Some f →
  Forall resolved_entry hosts →
  NoDup (map hostname hosts) →
  Forall stable_line (pre_lines (read_regions (data f))) →
  Forall (λ h, too_long (mapping_line (ip_address h) (hostname h)) = false)
    hosts →
  (writeHostsFile sys fs hosts).1.1 = true →
  writeHostsFile sys' (writeHostsFile sys fs hosts).2 hosts
  = ((false, None), (writeHostsFile sys fs hosts).2).
Proof.
  intros Hf Hres Hnd Hpre Hlen Hw.
  destruct (writeHostsFile_wrote_inv _ _ _ Hw) as (f' & name & Hf' & Hn & Hok).
  rewrite Hf in Hf'. injection Hf' as <-.
  rewrite (writeHostsFile_succeeds _ _ _ _ _ Hf Hn Hok). cbn [snd].
  eapply writeHostsFile_unchanged; [apply lookup_insert_eq|]. cbn [data].
  unfold read_regions at 1. rewrite write_all_ends.
  fold (read_regions (data f)).
  unfold read_mappings at 1, read_regions at 1.
  rewrite ScanLines_bytes_of.
  - apply resolved_region_unchanged; [|done..].
    apply scan_regions_sentinel_free.
  - apply Forall_app. split; [done|].
    apply Forall_cons. split; [by vm_compute|].
    apply Forall_app. split; [|by repeat constructor].
    rewrite entries_resolved by done. apply Forall_map.
    apply Forall_forall. intros h Hin.
    rewrite Forall_forall in Hres, Hlen.
    destruct (Hres h Hin) as (_ & Hname & Hip & _).
    apply mapping_line_stable; auto.
Qed.

(** ** The claims *)

(** C1 (evaluation at the failing input): with the hosts file
    [hosts_with_post], which holds one line after the end sentinel, and
    one resolved host, [writeHostsFile] reports a write and the new text
    ends with the end sentinel: the line before the begin sentinel is
    kept, the line after the end sentinel is gone. *)
Theorem post_line_lost :
  let out := writeHostsFile (ok_sys "123") hosts_with_post [api_host] in
  out.1 = (true, None)
  ∧ data <$> out.2 !! "/etc/hosts" =
    Some (bytes_of ["127.0.0.1 localhost"; DNSPIN_BEGIN;
                    mapping_line "203.0.113.5" "api.internal"; DNSPIN_END])
  ∧ post_lines (read_regions (bytes_of ["127.0.0.1 localhost"; DNSPIN_BEGIN;
                                        DNSPIN_END; "10.1.1.1 printer"])) = []
  ∧ pin_lines (read_regions (bytes_of ["127.0.0.1 localhost"; DNSPIN_BEGIN;
                                       DNSPIN_END; "10.1.1.1 printer"]))
    = ["10.1.1.1 printer"].
Proof. vm_compute. done. Qed.




(** C3 (counterexample): cycles that change nothing and write all the
    same.  With a server that has no record for the host, the first
    cycle writes the hosts file and so does the second one, on the file
    the first one left, to the same text.  With a server that cannot be
    reached and a file that pins the host, both cycles write as well. *)
Lemma unchanged_cycle_rewrites :
  let run1 := cycle empty_server (ok_sys "1") plain_hosts [unset_host] in
  let run2 := cycle empty_server (ok_sys "2") run1.2.2 run1.1 in
  let run3 := cycle dead_server (ok_sys "1") pinned_hosts [unset_host] in
  let run4 := cycle dead_server (ok_sys "2") run3.2.2 run3.1 in
  (map last_result run1.1 = [NoRecord]
   ∧ run1.2.1 = (true, None)
   ∧ run2.1 = run1.1 ∧ run2.2.1 = (true, None) ∧ run2.2.2 = run1.2.2)
  ∧ (map last_result run3.1 = [LookupFailed]
     ∧ run3.2.1 = (true, None)
     ∧ run4.1 = run3.1 ∧ run4.2.1 = (true, None) ∧ run4.2.2 = run3.2.2).
Proof. vm_compute. done. Qed.

(** C3 (amended): on a hosts file that can be opened, with the mappings
    [m] that the run reads from it.  A rewrite is needed exactly when
    the number of the mappings differs from the number of the hosts or
    some host has no mapping or a mapping that differs from its field
    [ip_address], which holds a marker, not an address, after a lookup
    that failed or found no record.  A run that writes needed it; when
    a rewrite is needed and no system call fails, the new text replaces
    the file; when none is needed, the run returns false without an
    error and the file system is as before.  That is the case of a file
    that ends with a managed region made of the entries of the hosts,
    when these are all resolved and no name occurs twice; and so, after
    a run that wrote for such hosts, the next run for the same hosts
    writes nothing, when the lines kept from the file and the mapping
    lines are read back as they were written. *)
Theorem rewrite_rule (sys sys' : syscalls) (fs : filesys) (f : file)
    (hosts : list host_config) (name : string) (pre : list string)
    (m0 : gmap string string) :
  fs !! "/etc/hosts" = Some f →
  let m := read_mappings (data f) in
  let out := writeHostsFile sys fs hosts in
  (needs_rewrite m hosts = true ↔
     size m ≠ length hosts
     ∨ ∃ host, host ∈ hosts
         ∧ (m !! hostname host = None
            ∨ ∃ ip, m !! hostname host = Some ip ∧ ip ≠ ip_address host))
  ∧ (out.1.1 = true → needs_rewrite m hosts = true)
  ∧ (needs_rewrite m hosts = true → succeeds sys fs name →
       out = ((true, None),
              <["/etc/hosts" :=
                  mk_file (bytes_of (write_all (read_regions (data f)) m
                                       hosts)) 420]> fs))
  ∧ (needs_rewrite m hosts = false → out = ((false, None), fs))
  ∧ (ScanLines (data f)
     = pre ++ [DNSPIN_BEGIN] ++ entries m0 hosts ++ [DNSPIN_END] →
     Forall (λ l, ¬ sentinel l) pre →
     Forall resolved_entry hosts →
     NoDup (map hostname hosts) →
     out = ((false, None), fs))
  ∧ (Forall resolved_entry hosts →
     NoDup (map hostname hosts) →
     Forall stable_line (pre_lines (read_regions (data f))) →
     Forall (λ h, too_long (mapping_line (ip_address h) (hostname h))
                  = false) hosts →
     out.1.1 = true →
     writeHostsFile sys' out.2 hosts = ((false, None), out.2)).
Proof.
  intros Hf m out. split; [apply needs_rewrite_true|].
  split.
  { intros (f' & Hf' & Hn)%writeHostsFile_wrote.
    rewrite Hf in Hf'. by injection Hf' as <-. }
  split; [by apply writeHostsFile_succeeds|].
  split; [by apply writeHostsFile_unchanged|].
  split; [|by apply second_run_unchanged].
  intros Hlines Hpre Hres Hnd.
  apply (writeHostsFile_unchanged sys fs f hosts Hf).
  unfold read_mappings, read_regions. rewrite Hlines.
  by apply resolved_region_unchanged.
Qed.

Lemma rewrite_rule_witness :
  pinned_hosts !! "/etc/hosts"
  = Some (mk_file (bytes_of ["127.0.0.1 localhost"; DNSPIN_BEGIN;
                             mapping_line "203.0.113.5" "api.internal";
                             DNSPIN_END]) 420)
  ∧ writeHostsFile (ok_sys "123") pinned_hosts [api_host]
    = ((false, None), pinned_hosts).
Proof.
  split; [reflexivity|].
  refine (proj1 (proj2 (proj2 (proj2 (proj2
            (rewrite_rule (ok_sys "123") (ok_sys "124") pinned_hosts _
               [api_host] "/tmp/hosts123" ["127.0.0.1 localhost"] ∅
               eq_refl)))))
            eq_refl _ _ _).
  - repeat constructor. intros [E|E]; discriminate E.
  - repeat constructor; vm_compute; congruence.
  - apply NoDup_singleton.
Defined.

(** C4 (counterexample): in a run whose renaming and removal fail, the
    temporary file is still there afterwards, and it lies below /tmp,
    not below /etc, the directory of the hosts file. *)
Lemma temp_file_outside_etc :
  let out := writeHostsFile stuck_sys plain_hosts [api_host] in
  out.1 = (false, Some (LinkError "rename" "/tmp/hosts123" "/etc/hosts"))
  ∧ mode <$> out.2 !! "/tmp/hosts123" = Some 420
  ∧ below "/tmp" "/tmp/hosts123" = true
  ∧ below "/etc" "/tmp/hosts123" = false
  ∧ below "/etc" "/etc/hosts" = true.
Proof. vm_compute. done. Qed.

(** C4 (amended): in a run that needs a rewrite and creates its
    temporary file.  The file is created below /tmp, wherever the file
    system of /etc/hosts is.  When the change of mode to 0644, the
    writes with the flush and the renaming succeed, the hosts file
    holds the whole new text with the mode 0644 and the temporary name
    is gone.  When one of them fails, the run returns false with an
    error and the hosts file is as before; the deferred removal, when it
    succeeds, leaves the file system as it was, without the temporary
    file. *)
Theorem rewrite_atomic (sys : syscalls) (fs : filesys) (f : file)
    (hosts : list host_config) (suffix : string) :
  fs !! "/etc/hosts" = Some f →
  needs_rewrite (read_mappings (data f)) hosts = true →
  temp_suffix sys = Some suffix →
  let name := "/tmp/hosts" +:+ suffix in
  fs !! name = None →
  let out := writeHostsFile sys fs hosts in
  (below "/tmp" name = true ∧ below "/etc" name = false)
  ∧ (chmod_fails sys = false → write_fails sys = None →
     rename_fails sys = false →
     out = ((true, None),
            <["/etc/hosts" :=
                mk_file (bytes_of (write_all (read_regions (data f))
                                     (read_mappings (data f)) hosts)) 420]>
              fs)
     ∧ out.2 !! name = None)
  ∧ (chmod_fails sys = true ∨ write_fails sys ≠ None
     ∨ rename_fails sys = true →
     (∃ err, out.1 = (false, Some err))
     ∧ out.2 !! "/etc/hosts" = Some f
     ∧ (remove_fails sys = false → out.2 = fs ∧ out.2 !! name = None)).
Proof.
  intros Hf Hn Hs name Hfresh out. split; [done|]. split.
  - intros Hc Hw Hr.
    assert (succeeds sys fs name) as Hok.
    { split; [by exists suffix|]. done. }
    unfold out. rewrite (writeHostsFile_succeeds _ _ _ _ _ Hf Hn Hok).
    split; [done|]. simpl.
    rewrite lookup_insert_ne; [done|].
    apply not_eq_sym, temp_name_fresh.
  - intros Hfail.
    assert (fails_after_create sys fs name) as Hbad.
    { split; [by exists suffix|]. done. }
    destruct (writeHostsFile_fails _ _ _ _ _ Hf Hn Hbad) as (He & Hh & Hrm).
    split; [done|]. split; [done|].
    intros Hr. unfold out. by rewrite (Hrm Hr).
Qed.

Lemma rewrite_atomic_witness :
  writeHostsFile chmod_sys plain_hosts [api_host]
  = ((false, Some (PathError "chmod" "/tmp/hosts123")), plain_hosts).
Proof.
  pose proof (rewrite_atomic chmod_sys plain_hosts _ [api_host] "123"
                eq_refl eq_refl eq_refl eq_refl) as (_ & _ & H).
  destruct (H (or_introl eq_refl)) as (_ & _ & Hrm).
  destruct (Hrm eq_refl) as [Hfs _].
  apply injective_projections; [reflexivity | exact Hfs].
Defined.

(** C5 (evaluation at the failing input): the managed region of the
    hosts file [pinned_a_with_post] maps the host [a] to 10.0.0.1 and one
    line follows the end sentinel.  The run for the host [a], whose
    lookup failed, does not read this mapping: it reads the mappings of
    the line after the region, and it writes the comment of an error
    without a cached value and no mapping line for [a]. *)
Theorem cached_fallback_lost :
  let text := bytes_of ["127.0.0.1 localhost"; DNSPIN_BEGIN;
                        mapping_line "10.0.0.1" "a"; DNSPIN_END;
                        "10.1.1.1 printer"] in
  let out := writeHostsFile (ok_sys "123") pinned_a_with_post [failed_host] in
  last_result failed_host = LookupFailed
  ∧ parse_mappings [mapping_line "10.0.0.1" "a"] !! "a" = Some "10.0.0.1"
  ∧ pin_lines (read_regions text) = ["10.1.1.1 printer"]
  ∧ read_mappings text !! "a" = None
  ∧ out.1 = (true, None)
  ∧ data <$> out.2 !! "/etc/hosts"
    = Some (bytes_of ["127.0.0.1 localhost"; DNSPIN_BEGIN;
                      "# a: error during lookup to 10.0.0.53"; DNSPIN_END]).
Proof. vm_compute. done. Qed.

(** C6: for a host whose server has no record, the loop writes nothing,
    whatever the mappings read from the hosts file hold for its name:
    the entries and the text written are those of the list of hosts
    without it. *)
Theorem no_record_entry (r : regions) (m : gmap string string)
    (before after : list host_config) (host : host_config) :
  last_result host = NoRecord →
  (∀ w, write_host m w host = w)
  ∧ entries m (before ++ host :: after) = entries m (before ++ after)
  ∧ write_all r m (before ++ host :: after) = write_all r m (before ++ after).
Proof.
  intros [Hne Hmiss]%no_record_marker.
  assert (∀ w, write_host m w host = w) as Hw.
  { intros w. unfold write_host. rewrite decide_False by done.
    rewrite decide_False; [done|]. by intros H. }
  assert (entries m (before ++ host :: after) = entries m (before ++ after))
    as He.
  { by rewrite !entries_app, entries_cons, Hw. }
  split; [done|]. split; [done|].
  by rewrite !write_all_eq, He.
Qed.

Lemma no_record_entry_witness :
  last_result missing_host = NoRecord
  ∧ former_mappings !! hostname missing_host = Some "10.0.0.2"
  ∧ entries former_mappings [api_host; missing_host]
    = [mapping_line "203.0.113.5" "api.internal"].
Proof.
  assert (last_result missing_host = NoRecord) as H by reflexivity.
  split; [exact H|]. split; [reflexivity|].
  exact (proj1 (proj2
           (no_record_entry regions_init former_mappings [api_host] []
              missing_host H))).
Defined.

(** C7 (counterexample): a resolved address that starts with the
    character of comments, or that is empty, has no white space, and
    its mapping line does not come back from the managed region. *)
Lemma roundtrip_loses_odd_addresses :
  (Forall (λ h, last_result h = Resolved (ip_address h)
                ∧ has_space (hostname h) = false
                ∧ has_space (ip_address h) = false) odd_hosts
   ∧ parse_mappings
       (pin_lines (scan_regions
          ([DNSPIN_BEGIN] ++ entries ∅ odd_hosts ++ [DNSPIN_END])))
     ≠ mapping_of odd_hosts)
  ∧ (Forall (λ h, last_result h = Resolved (ip_address h)
                  ∧ has_space (hostname h) = false
                  ∧ has_space (ip_address h) = false) empty_hosts
     ∧ parse_mappings
         (pin_lines (scan_regions
            ([DNSPIN_BEGIN] ++ entries ∅ empty_hosts ++ [DNSPIN_END])))
       ≠ mapping_of empty_hosts).
Proof.
  split; (split; [by repeat constructor|]);
    intros E; apply (f_equal (λ m : gmap string string, m !! "a")) in E;
    vm_compute in E; discriminate E.
Qed.

(** C7 (amended): for hosts that are all resolved, with names and
    addresses that are not empty and hold no white space, and addresses
    that do not start with the character of comments: the entries are
    one mapping line for each host, in order, and the scan and the parse
    of the managed region made of them give the mapping of the list of
    hosts. *)
Theorem render_parse_roundtrip (hosts : list host_config)
    (m : gmap string string) :
  Forall resolved_entry hosts →
  entries m hosts
  = map (λ h, mapping_line (ip_address h) (hostname h)) hosts
  ∧ parse_mappings
      (pin_lines (scan_regions
         ([DNSPIN_BEGIN] ++ entries m hosts ++ [DNSPIN_END])))
    = mapping_of hosts.
Proof.
  intros Hres. split; [by apply entries_resolved|].
  change ([DNSPIN_BEGIN] ++ entries m hosts ++ [DNSPIN_END])
    with ([] ++ [DNSPIN_BEGIN] ++ entries m hosts ++ [DNSPIN_END]).
  rewrite scan_resolved_region by done.
  by apply parse_resolved.
Qed.

Lemma render_parse_roundtrip_witness :
  Forall resolved_entry [api_host]
  ∧ parse_mappings
      (pin_lines (scan_regions
         ([DNSPIN_BEGIN] ++ entries ∅ [api_host] ++ [DNSPIN_END])))
    = mapping_of [api_host].
Proof.
  assert (Forall resolved_entry [api_host]) as H.
  { repeat constructor; vm_compute; congruence. }
  split; [exact H|].
  exact (proj2 (render_parse_roundtrip [api_host] ∅ H)).
Defined.

(** C8: the three outcomes of a lookup.  When the exchange with the
    server fails, [lookupIP] returns its error and [main] marks the host
    as failed.  When the server replies without an A record, [lookupIP]
    returns the marker of a missing record and no error.  When the reply
    holds A records, [lookupIP] returns the text of the address of the
    first of them and no error, and [main] stores it.  Every exchange is
    of one of the three kinds. *)
Theorem lookupIP_outcome (c : dns_client) (host : host_config) :
  let reply := c (hostname host) (dns_server host +:+ ":53") in
  let out := lookupIP c (hostname host) (dns_server host) in
  (∀ err, reply = Failed err →
     out = ("", Some err) ∧ ip_address (resolve c host) = ERROR)
  ∧ (∀ Answer, reply = Reply Answer → Forall (λ rr, rr = RR_other) Answer →
       out = (MISSING, None) ∧ ip_address (resolve c host) = MISSING)
  ∧ (∀ others a rest, reply = Reply (others ++ RR_A a :: rest) →
       Forall (λ rr, rr = RR_other) others →
       out = (a, None) ∧ ip_address (resolve c host) = a)
  ∧ ((∃ err, reply = Failed err)
     ∨ (∃ Answer, reply = Reply Answer ∧ Forall (λ rr, rr = RR_other) Answer)
     ∨ (∃ others a rest, reply = Reply (others ++ RR_A a :: rest)
          ∧ Forall (λ rr, rr = RR_other) others)).
Proof.
  intros reply out. subst out. unfold resolve, lookupIP. fold reply.
  split; [|split; [|split]].
  - intros err ->. done.
  - intros Answer -> H.
    assert (first_A Answer = None) as ->; [|done].
    induction H as [|rr Answer -> _ IH]; done.
  - intros others a rest -> H.
    assert (first_A (others ++ RR_A a :: rest) = Some a) as ->; [|done].
    induction H as [|rr others -> _ IH]; done.
  - destruct reply as [Answer|err]; [|left; by exists err].
    right. clear. induction Answer as [|[a|] Answer IH].
    + left. by exists [].
    + right. exists [], a, Answer. by split.
    + destruct IH as [(A' & [= ->] & H)|(others & a & rest & [= ->] & H)].
      * left. exists (RR_other :: A'). split; [done|]. by constructor.
      * right. exists (RR_other :: others), a, rest. split; [done|].
        by constructor.
Qed.

Lemma lookupIP_outcome_witness :
  lookupIP dead_server "api.internal" "10.0.0.53"
  = ("", Some (dns_error "i/o timeout"))
  ∧ lookupIP empty_server "api.internal" "10.0.0.53" = (MISSING, None)
  ∧ lookupIP good_server "api.internal" "10.0.0.53" = ("203.0.113.5", None).
Proof.
  split; [|split].
  - exact (proj1 (proj1 (lookupIP_outcome dead_server api_host)
                    (dns_error "i/o timeout") eq_refl)).
  - refine (proj1 (proj1 (proj2 (lookupIP_outcome empty_server api_host))
                     [RR_other] eq_refl _)).
    by repeat constructor.
  - refine (proj1 (proj1 (proj2 (proj2
                     (lookupIP_outcome good_server api_host)))
                     [RR_other] "203.0.113.5" [RR_A "203.0.113.6"]
                     eq_refl _)).
    by repeat constructor.
Defined.

(** C9 (counterexample): a line of white space only is not passed over,
    the load fails on it; and a line of 65536 bytes ends the reading, so
    that this line, which has one field, and the line of three fields
    after it give no error. *)
Lemma load_misses_lines :
  loadHostConfig white_conf "dnspin.conf"
  = ([mk_host_config "api.internal" "10.0.0.53" NIL],
     Some (errors_New "Unexpected input on line 2:   "))
  ∧ length (Fields long_line) = 1%nat
  ∧ length (Fields "db.internal 10.0.0.53 extra") = 3%nat
  ∧ loadHostConfig long_bad_conf "dnspin.conf"
    = ([mk_host_config "api.internal" "10.0.0.53" NIL], None).
Proof.
  split; [by vm_compute|]. split.
  { rewrite Fields_token; [done|]. split; [discriminate | by vm_compute]. }
  split; [by vm_compute|].
  rewrite (load_long long_bad_conf "dnspin.conf" _
             ["api.internal 10.0.0.53"] long_line
             ["db.internal 10.0.0.53 extra"] eq_refl eq_refl).
  - by vm_compute.
  - by repeat constructor.
  - by vm_compute.
  - by vm_compute.
Qed.

(** C9 (amended): [loadHostConfig] on a file that can be opened.  It
    reads the lines of the file up to its end or to the first line of
    65536 bytes or more, where the reading ends without an error.  Of
    the lines read it passes over the empty ones and the ones that
    start with the character of comments.  When every other line read
    has two fields, the load gives, in order, one entry for each of
    them, the first field its name and the second its server, and no
    error.  At the first other line, be it of white space only, with
    another number of fields the load stops with the error that tells
    the number of the line, counted from one (a number that an [int]
    holds), and the text of the line.  Every entry returned has the
    marker of a host not yet looked up. *)
Theorem loadHostConfig_lines (fs : filesys) (filename : string) (f : file)
    (good rest : list string) (bad : string)
    (w before after : list string) (long : string) :
  fs !! filename = Some f →
  let lines := ScanLines (data f) in
  let two_fields line :=
    skipped line = true ∨ length (Fields line) = 2%nat in
  (Forall two_fields lines →
     loadHostConfig fs filename = (entries_of lines, None))
  ∧ (lines = good ++ bad :: rest → Forall two_fields good →
     skipped bad = false → length (Fields bad) ≠ 2%nat →
     (Z.of_nat (length good) + 1 < 2 ^ 63)%Z →
     loadHostConfig fs filename
     = (entries_of good,
        Some (errors_New ("Unexpected input on line "
                          +:+ pretty (Z.of_nat (length good) + 1)%Z
                          +:+ ": " +:+ bad))))
  ∧ Forall (λ h, ip_address h = NIL ∧ last_result h = Unset)
      (loadHostConfig fs filename).1
  ∧ (data f = bytes_of w → Forall stable_line w → lines = w)
  ∧ (data f = bytes_of (before ++ long :: after) →
     Forall stable_line before →
     occurs (char 10) long = false → too_long long = true →
     lines = before)
  ∧ (bad ≠ "" → HasPrefix bad "#" = false → Fields bad = [] →
     skipped bad = false ∧ length (Fields bad) ≠ 2%nat).
Proof.
  intros Hf lines two_fields. unfold loadHostConfig, os_Open. rewrite Hf.
  fold lines. split; [|split; [|split; [|split; [|split]]]].
  - intros H. by rewrite load_lines_good.
  - intros -> H Hs Hbad Hmax. by rewrite load_lines_bad.
  - by apply load_lines_unset.
  - intros E Hw. unfold lines. rewrite E. by apply ScanLines_bytes_of.
  - intros E Hb Hlf Hlong. unfold lines. rewrite E. by apply ScanLines_long.
  - intros Hne Hc E. split.
    + unfold skipped. rewrite Hc, orb_false_r. by apply bool_decide_eq_false.
    + by rewrite E.
Qed.

Lemma loadHostConfig_lines_witness :
  loadHostConfig sample_conf "dnspin.conf"
  = ([mk_host_config "api.internal" "10.0.0.53" NIL],
     Some (errors_New
             "Unexpected input on line 4: db.internal 10.0.0.53 extra")).
Proof.
  refine (proj1 (proj2
            (loadHostConfig_lines sample_conf "dnspin.conf" _
               ["# pinned hosts"; ""; "api.internal 10.0.0.53"] []
               "db.internal 10.0.0.53 extra" [] [] [] "" eq_refl))
            eq_refl _ eq_refl _ _).
  - repeat (constructor; [vm_compute; auto|]). constructor.
  - vm_compute. lia.
  - reflexivity.
Defined.

(** C10 (counterexample): the one line of the hosts file [cr_hosts] is
    the end sentinel followed by two carriage returns.  The scanner
    drops one of them: the line read is no sentinel and is kept.  The
    file that the run writes, read line by line, then holds two lines
    equal to the end sentinel, one of them before the begin sentinel. *)
Lemma carriage_return_sentinel :
  let out := writeHostsFile (ok_sys "123") cr_hosts [api_host] in
  ScanLines (DNSPIN_END +:+ String CR (String CR "") +:+ LF)
  = [DNSPIN_END +:+ String CR ""]
  ∧ out.1 = (true, None)
  ∧ ScanLines ∘ data <$> out.2 !! "/etc/hosts"
    = Some [DNSPIN_END; DNSPIN_BEGIN;
            mapping_line "203.0.113.5" "api.internal"; DNSPIN_END]
  ∧ length (filter (λ l, l = DNSPIN_END)
              [DNSPIN_END; DNSPIN_BEGIN;
               mapping_line "203.0.113.5" "api.internal"; DNSPIN_END])
    = 2%nat.
Proof. vm_compute. done. Qed.

(** C10 (amended): whatever lines are read from the hosts file, the scan
    keeps no sentinel line in [pre_lines], [pin_lines] and [post_lines],
    the lines of the entries are no sentinel lines, and what is written
    is the lines before the region, the begin sentinel, the entries, the
    end sentinel and the lines after the region: the begin sentinel and
    the end sentinel are written once each, in this order.  A run that
    reports a write leaves these lines, each with its newline, as the
    text of /etc/hosts; and when the lines kept and the lines of the
    entries are read back as they are written, the file left, read line
    by line, holds these very lines, so one line equal to the begin
    sentinel and one equal to the end sentinel. *)
Theorem one_region_written (lines : list string) (m : gmap string string)
    (hosts : list host_config) (sys : syscalls) (fs : filesys) :
  let r := scan_regions lines in
  let w := write_all r m hosts in
  let out := writeHostsFile sys fs hosts in
  sentinel_free r
  ∧ Forall (λ l, ¬ sentinel l) (entries m hosts)
  ∧ w = pre_lines r ++ [DNSPIN_BEGIN] ++ entries m hosts ++ [DNSPIN_END]
        ++ post_lines r
  ∧ length (filter (λ l, l = DNSPIN_BEGIN) w) = 1%nat
  ∧ length (filter (λ l, l = DNSPIN_END) w) = 1%nat
  ∧ (Forall stable_line (pre_lines r) →
     Forall stable_line (entries m hosts) →
     ScanLines (bytes_of w) = w)
  ∧ (out.1.1 = true →
     ∃ f f', fs !! "/etc/hosts" = Some f
       ∧ out.2 !! "/etc/hosts" = Some f'
       ∧ let r' := read_regions (data f) in
         let m' := read_mappings (data f) in
         data f' = bytes_of (write_all r' m' hosts)
         ∧ (Forall stable_line (pre_lines r') →
            Forall stable_line (entries m' hosts) →
            ScanLines (data f')
            = pre_lines r' ++ [DNSPIN_BEGIN] ++ entries m' hosts
              ++ [DNSPIN_END]
            ∧ length (filter (λ l, l = DNSPIN_BEGIN) (ScanLines (data f')))
              = 1%nat
            ∧ length (filter (λ l, l = DNSPIN_END) (ScanLines (data f')))
              = 1%nat)).
Proof.
  intros r w out.
  assert (∀ ls m0, sentinel_free (scan_regions ls)
            ∧ Forall (λ l, ¬ sentinel l) (entries m0 hosts)
            ∧ length (filter (λ l, l = DNSPIN_BEGIN)
                        (write_all (scan_regions ls) m0 hosts)) = 1%nat
            ∧ length (filter (λ l, l = DNSPIN_END)
                        (write_all (scan_regions ls) m0 hosts)) = 1%nat)
    as Hcount.
  { intros ls m0.
    pose proof (scan_regions_sentinel_free ls) as (Hpre & Hpin & Hpost).
    pose proof (entries_not_sentinel m0 hosts) as Hent.
    split; [done|]. split; [done|]. rewrite write_all_eq. split.
    - apply count_between;
        auto using sentinels_differ, not_sentinel_begin.
    - apply count_between;
        auto using not_eq_sym, sentinels_differ, not_sentinel_end. }
  assert (∀ ls m0, Forall stable_line (pre_lines (scan_regions ls)) →
            Forall stable_line (entries m0 hosts) →
            ScanLines (bytes_of (write_all (scan_regions ls) m0 hosts))
            = write_all (scan_regions ls) m0 hosts) as Hback.
  { intros ls m0 Hpre Hent. apply ScanLines_bytes_of.
    rewrite write_all_ends. apply Forall_app. split; [done|].
    apply Forall_cons. split; [by vm_compute|].
    apply Forall_app. split; [done|]. by repeat constructor. }
  destruct (Hcount lines m) as (H1 & H2 & H3 & H4).
  split; [done|]. split; [done|]. split; [apply write_all_eq|].
  split; [done|]. split; [done|]. split; [by apply Hback|].
  intros (f & name & Hf & Hn & Hok)%writeHostsFile_wrote_inv.
  exists f. eexists. split; [done|]. split.
  { unfold out. rewrite (writeHostsFile_succeeds _ _ _ _ _ Hf Hn Hok).
    cbn [snd]. apply lookup_insert_eq. }
  cbn [data]. split; [done|]. intros Hpre Hent.
  unfold read_regions in *. rewrite (Hback _ _ Hpre Hent).
  destruct (Hcount (ScanLines (data f)) (read_mappings (data f)))
    as (_ & _ & H5 & H6).
  split; [apply write_all_ends|]. done.
Qed.

Lemma one_region_written_witness :
  let out := writeHostsFile (ok_sys "123") plain_hosts [api_host] in
  out.1.1 = true
  ∧ ∃ f', out.2 !! "/etc/hosts" = Some f'
      ∧ ScanLines (data f')
        = ["127.0.0.1 localhost"; DNSPIN_BEGIN;
           mapping_line "203.0.113.5" "api.internal"; DNSPIN_END]
      ∧ length (filter (λ l, l = DNSPIN_BEGIN) (ScanLines (data f')))
        = 1%nat
      ∧ length (filter (λ l, l = DNSPIN_END) (ScanLines (data f')))
        = 1%nat.
Proof.
  intros out.
  assert (out.1.1 = true) as Hw by (vm_compute; reflexivity).
  split; [exact Hw|].
  destruct (proj2 (proj2 (proj2 (proj2 (proj2 (proj2
              (one_region_written [] ∅ [api_host] (ok_sys "123")
                 plain_hosts)))))) Hw)
    as (f & f' & Hf & Hf' & _ & Hback).
  assert (plain_hosts !! "/etc/hosts"
          = Some (mk_file (bytes_of ["127.0.0.1 localhost"]) 420)) as Hf0
    by reflexivity.
  rewrite Hf0 in Hf. injection Hf as <-.
  exists f'. split; [exact Hf'|].
  apply Hback; repeat constructor.
Defined.

(** ** Further properties *)

(** *** The fields of a line *)

(** A white-space character found at the head of a text is found there
    whatever follows the text. *)
Lemma space_width_more c a rest :
  space_width (String c a) ≠ 0%nat →
  space_width (String c (a +:+ rest)) = space_width (String c a).
Proof.
  destruct a as [|c2 [|c3 a]]; rewrite ?append_cons, ?append_nil_l; simpl.
  - destruct (asciiSpace (byte c)); [|done]. by destruct rest.
  - destruct (asciiSpace (byte c)); [done|].
    destruct (space2 (byte c) (byte c2)); [|done]. by destruct rest.
  - done.
Qed.

Lemma space_before_sound f rest :
  space_before f rest = false → has_space f = false.
Proof.
  induction f as [|c f IH]; [done|]. intros H.
  change (space_before (String c f) rest)
    with (bool_decide (space_width (String c f +:+ rest) ≠ 0%nat)
          || space_before f rest) in H.
  apply orb_false_iff in H as [H1 H2]. apply bool_decide_eq_false in H1.
  change (has_space (String c f))
    with (bool_decide (space_width (String c f) ≠ 0%nat) || has_space f).
  rewrite (IH H2), orb_false_r. apply bool_decide_eq_false. intros Hw.
  apply H1. rewrite append_cons, (space_width_more _ _ _ Hw). done.
Qed.

Lemma space_before_push f c r :
  space_before (f +:+ String c "") r
  = space_before f (String c r)
    || bool_decide (space_width (String c r) ≠ 0%nat).
Proof.
  induction f as [|x f IH].
  - rewrite append_nil_l. simpl. by rewrite orb_false_r.
  - rewrite append_cons.
    change (space_before (String x (f +:+ String c "")) r)
      with (bool_decide
              (space_width (String x (f +:+ String c "") +:+ r) ≠ 0%nat)
            || space_before (f +:+ String c "") r).
    change (space_before (String x f) (String c r))
      with (bool_decide (space_width (String x f +:+ String c r) ≠ 0%nat)
            || space_before f (String c r)).
    rewrite IH, !append_cons, append_assoc, orb_assoc. done.
Qed.

(** Every field that the walk returns is a token. *)
Lemma fields_from_tokens s skip cur :
  walk_ok s skip cur → Forall token (fields_from s skip cur).
Proof.
  revert skip cur. induction s as [|c r IH]; intros skip cur Hok.
  - destruct cur as [f|]; [|constructor]. destruct Hok as (_ & Hne & Hsp).
    repeat constructor; [done|]. by apply (space_before_sound f "").
  - destruct skip as [|k].
    + rewrite fields_from_cons.
      destruct (space_width (String c r)) as [|k] eqn:Hw.
      * apply IH. destruct cur as [f|]; cbn [push_byte walk_ok].
        -- destruct Hok as (_ & Hne & Hsp). split; [done|]. split.
           ++ by destruct f.
           ++ rewrite space_before_push, Hsp, Hw. done.
        -- split; [done|]. split; [done|].
           change (space_before (String c "") r)
             with (bool_decide (space_width (String c r) ≠ 0%nat) || false).
           rewrite Hw. done.
      * apply Forall_app. split; [|by apply IH].
        destruct cur as [f|]; [|constructor].
        destruct Hok as (_ & Hne & Hsp).
        repeat constructor; [done|]. by apply (space_before_sound f _ Hsp).
    + destruct cur as [f|]; [by destruct Hok|].
      change (fields_from (String c r) (S k) None) with (fields_from r k None).
      by apply IH.
Qed.

Lemma Fields_tokens s : Forall token (Fields s).
Proof. by apply fields_from_tokens. Qed.

Lemma load_lines_fields lines lineno hosts :
  Forall host_fields hosts →
  Forall host_fields (load_lines lines lineno hosts).1.
Proof.
  revert lineno hosts.
  induction lines as [|line lines IH]; intros lineno hosts H; [done|].
  cbn [load_lines].
  destruct (_ && _); [|by apply IH].
  pose proof (Fields_tokens line) as Ht.
  destruct (Fields line) as [|f0 [|f1 [|? ?]]]; try done.
  apply IH, Forall_app. split; [done|].
  apply Forall_cons in Ht as [H0 [H1 _]%Forall_cons].
  constructor; [by split | constructor].
Qed.

(** X1: whatever the configuration file holds, the name and the server
    of every host that [loadHostConfig] returns are fields of a line:
    they are not empty and hold no white space, so no tab and no
    newline.  This holds of the hosts returned with an error as well. *)
Theorem loaded_hosts_are_fields (fs : filesys) (filename : string) :
  Forall (λ host, host_fields host
                  ∧ occurs (char 9) (hostname host) = false
                  ∧ occurs (char 10) (hostname host) = false)
    (loadHostConfig fs filename).1.
Proof.
  assert (Forall host_fields (loadHostConfig fs filename).1) as H.
  { unfold loadHostConfig. destruct (os_Open fs filename); [|constructor].
    by apply load_lines_fields. }
  eapply Forall_impl; [exact H|]. intros host [[Hne Hsp] Hs].
  split; [done|]. split; by apply no_space_occurs.
Qed.

(** *** Comments of the configuration file *)

Lemma load_lines_skip lines lineno lineno' hosts :
  (load_lines lines lineno hosts).1
  = (load_lines (filter (λ l, skipped l = false) lines) lineno' hosts).1
  ∧ (is_Some (load_lines lines lineno hosts).2
     ↔ is_Some (load_lines (filter (λ l, skipped l = false) lines)
                  lineno' hosts).2).
Proof.
  revert lineno lineno' hosts.
  induction lines as [|line lines IH]; intros lineno lineno' hosts; [done|].
  destruct (skipped line) eqn:Hs.
  - rewrite filter_cons_False by (by rewrite Hs).
    cbn [load_lines]. rewrite load_test, Hs. simpl negb. cbv iota.
    apply IH.
  - rewrite filter_cons_True by done.
    cbn [load_lines]. rewrite load_test, Hs. simpl negb. cbv iota.
    destruct (Fields line) as [|f0 [|f1 [|? ?]]]; first [done | apply IH].
Qed.

(** X2: the comments and the empty lines of a configuration file do not
    count: a file that holds the other lines only, in the same order,
    loads the same hosts, and the one load fails exactly when the other
    one does (the line numbers of the errors differ). *)
Theorem comments_do_not_count (fs fs' : filesys) (name name' : string)
    (f f' : file) :
  fs !! name = Some f →
  fs' !! name' = Some f' →
  ScanLines (data f') = filter (λ l, skipped l = false) (ScanLines (data f)) →
  (loadHostConfig fs name).1 = (loadHostConfig fs' name').1
  ∧ (is_Some (loadHostConfig fs name).2
     ↔ is_Some (loadHostConfig fs' name').2).
Proof.
  intros Hf Hf' E. unfold loadHostConfig, os_Open. rewrite Hf, Hf', E.
  apply load_lines_skip.
Qed.

Lemma comments_do_not_count_witness :
  (loadHostConfig sample_conf "dnspin.conf").1
  = (loadHostConfig bare_conf "dnspin.conf").1.
Proof.
  exact (proj1 (comments_do_not_count sample_conf bare_conf "dnspin.conf"
                  "dnspin.conf" _ _ eq_refl eq_refl eq_refl)).
Defined.

(** *** What a run leaves *)

(** X3: the lines of the hosts file before its first sentinel line are
    the lines kept in [pre_lines], and a rewrite writes them first, as
    they are and in order, followed by the begin sentinel, the entries
    and the end sentinel. *)
Theorem lines_before_region_kept (pre rest : list string) (s : string)
    (m : gmap string string) (hosts : list host_config) :
  Forall (λ l, ¬ sentinel l) pre →
  sentinel s →
  pre_lines (scan_regions (pre ++ s :: rest)) = pre
  ∧ write_all (scan_regions (pre ++ s :: rest)) m hosts
    = pre ++ [DNSPIN_BEGIN] ++ entries m hosts ++ [DNSPIN_END].
Proof.
  intros Hpre Hs.
  assert (pre_lines (scan_regions (pre ++ s :: rest)) = pre) as E
    by by apply scan_keeps_pre.
  split; [done|]. by rewrite write_all_ends, E.
Qed.

Lemma lines_before_region_kept_witness :
  write_all (scan_regions ["127.0.0.1 localhost"; DNSPIN_BEGIN;
                           mapping_line "10.0.0.9" "old"; DNSPIN_END])
    ∅ [api_host]
  = ["127.0.0.1 localhost"; DNSPIN_BEGIN;
     mapping_line "203.0.113.5" "api.internal"; DNSPIN_END].
Proof.
  refine (proj2 (lines_before_region_kept ["127.0.0.1 localhost"]
                   [mapping_line "10.0.0.9" "old"; DNSPIN_END] DNSPIN_BEGIN
                   ∅ [api_host] _ _)).
  - repeat constructor. intros [E|E]; discriminate E.
  - by left.
Defined.

(** X4: a run of [writeHostsFile] that reports a write leaves in
    /etc/hosts, with the mode 0644, the lines it kept from before the
    region, the begin sentinel, the entries of the hosts and the end
    sentinel, and nothing after the end sentinel, whatever the file
    held there. *)
Theorem written_file (sys : syscalls) (fs : filesys)
    (hosts : list host_config) :
  (writeHostsFile sys fs hosts).1.1 = true →
  ∃ f, fs !! "/etc/hosts" = Some f
    ∧ (writeHostsFile sys fs hosts).2 !! "/etc/hosts"
      = Some (mk_file
                (bytes_of (pre_lines (read_regions (data f))
                           ++ [DNSPIN_BEGIN]
                           ++ entries (read_mappings (data f)) hosts
                           ++ [DNSPIN_END])) 420).
Proof.
  intros (f & name & Hf & Hn & Hok)%writeHostsFile_wrote_inv.
  exists f. split; [done|].
  rewrite (writeHostsFile_succeeds _ _ _ _ _ Hf Hn Hok). cbn [snd].
  rewrite lookup_insert_eq. unfold read_regions at 1.
  by rewrite write_all_ends.
Qed.

Lemma written_file_witness :
  data <$> (writeHostsFile (ok_sys "123") hosts_with_post [api_host]).2
             !! "/etc/hosts"
  = Some (bytes_of ["127.0.0.1 localhost"; DNSPIN_BEGIN;
                    mapping_line "203.0.113.5" "api.internal"; DNSPIN_END]).
Proof.
  destruct (written_file (ok_sys "123") hosts_with_post [api_host] eq_refl)
    as (f & Hf & ->).
  injection Hf as <-. reflexivity.
Defined.

(** X5: what a run of [writeHostsFile] never does.  It does not return
    true together with an error; when it returns false, /etc/hosts is as
    before; and whatever it returns, every file other than /etc/hosts
    and the temporary file is as before. *)
Theorem run_frame (sys : syscalls) (fs : filesys) (hosts : list host_config)
    (path : string) :
  let out := writeHostsFile sys fs hosts in
  (out.1.1 = true → out.1.2 = None)
  ∧ (out.1.1 = false → out.2 !! "/etc/hosts" = fs !! "/etc/hosts")
  ∧ (path ≠ "/etc/hosts" →
     (∀ suffix, temp_suffix sys = Some suffix →
                path ≠ "/tmp/hosts" +:+ suffix) →
     out.2 !! path = fs !! path).
Proof.
  intros out. subst out. unfold writeHostsFile, os_Open.
  destruct (fs !! "/etc/hosts") as [f|] eqn:Hf; [|done].
  destruct (negb _); [done|].
  unfold ioutil_TempFile.
  destruct (temp_suffix sys) as [suffix|] eqn:Hs; [|done].
  change ("/tmp" +:+ "/" +:+ "hosts" +:+ suffix)
    with ("/tmp/hosts" +:+ suffix).
  pose proof (temp_name_fresh suffix) as Hne.
  destruct (fs !! ("/tmp/hosts" +:+ suffix)) eqn:Hfresh; [done|].
  assert (∀ fs' : filesys, fs' !! "/etc/hosts" = Some f →
            os_Remove sys fs' ("/tmp/hosts" +:+ suffix) !! "/etc/hosts"
            = Some f) as Hkeep.
  { intros fs' E. unfold os_Remove. destruct (remove_fails sys); [done|].
    by rewrite lookup_delete_ne. }
  assert (∀ fs' : filesys, path ≠ "/tmp/hosts" +:+ suffix →
            fs' !! path = fs !! path →
            os_Remove sys fs' ("/tmp/hosts" +:+ suffix) !! path
            = fs !! path) as Hother.
  { intros fs' Hp E. unfold os_Remove. destruct (remove_fails sys); [done|].
    by rewrite lookup_delete_ne. }
  unfold Chmod, Flush, os_Rename.
  destruct (chmod_fails sys).
  { cbn [fst snd]. split; [done|]. split.
    - intros _. apply Hkeep. by rewrite lookup_insert_ne.
    - intros Hp Ht. apply Hother; [by apply Ht|].
      rewrite lookup_insert_ne; [done|]. apply not_eq_sym. by apply Ht. }
  rewrite alter_insert_eq.
  destruct (write_fails sys).
  { cbn [fst snd]. rewrite alter_insert_eq. split; [done|]. split.
    - intros _. apply Hkeep. by rewrite lookup_insert_ne.
    - intros Hp Ht. apply Hother; [by apply Ht|].
      rewrite lookup_insert_ne; [done|]. apply not_eq_sym. by apply Ht. }
  rewrite alter_insert_eq.
  destruct (rename_fails sys).
  { cbn [fst snd]. split; [done|]. split.
    - intros _. apply Hkeep. by rewrite lookup_insert_ne.
    - intros Hp Ht. apply Hother; [by apply Ht|].
      rewrite lookup_insert_ne; [done|]. apply not_eq_sym. by apply Ht. }
  rewrite lookup_insert_eq. cbn [fst snd]. split; [done|]. split; [done|].
  intros Hp Ht. apply Hother; [by apply Ht|].
  rewrite lookup_insert_ne by (by apply not_eq_sym).
  rewrite delete_insert_eq, lookup_delete_ne; [done|].
  apply not_eq_sym. by apply Ht.
Qed.

Lemma run_frame_witness :
  (writeHostsFile (ok_sys "123") home_fs [api_host]).1 = (true, None)
  ∧ (writeHostsFile (ok_sys "123") home_fs [api_host]).2 !! "/home/user/notes"
    = Some (mk_file "keep" 384).
Proof.
  split; [reflexivity|].
  refine (proj2 (proj2 (run_frame (ok_sys "123") home_fs [api_host]
                          "/home/user/notes")) _ _).
  - discriminate.
  - intros suffix [= <-]. discriminate.
Defined.

(** *** From one run to the next *)

(** X6: the text that a rewrite writes, read by the next run.  When the
    lines kept from the file and the lines of the entries are read back
    as they are written, the next run is after the region, holds the
    same lines before the region, holds of the region the lines of the
    entries that are not comments, and holds nothing after it. *)
Theorem rewritten_file_read_back (text : string) (m : gmap string string)
    (hosts : list host_config) :
  let r := read_regions text in
  Forall stable_line (pre_lines r) →
  Forall stable_line (entries m hosts) →
  read_regions (bytes_of (write_all r m hosts))
  = mk_regions POST_PIN (pre_lines r)
      (filter (λ l, HasPrefix l "#" = false) (entries m hosts)) [].
Proof.
  intros r Hpre Hent. subst r. unfold read_regions in *.
  rewrite write_all_ends, ScanLines_bytes_of.
  - apply scan_single_region; [|apply entries_not_sentinel].
    apply scan_regions_sentinel_free.
  - apply Forall_app. split; [done|].
    apply Forall_cons. split; [by vm_compute|].
    apply Forall_app. split; [done|]. by repeat constructor.
Qed.

Lemma rewritten_file_read_back_witness :
  read_regions
    (bytes_of (write_all (read_regions (bytes_of ["127.0.0.1 localhost"]))
                 former_mappings [failed_host]))
  = mk_regions POST_PIN ["127.0.0.1 localhost"]
      [mapping_line "10.0.0.1" "a"] [].
Proof.
  refine (rewritten_file_read_back (bytes_of ["127.0.0.1 localhost"])
            former_mappings [failed_host] _ _);
    repeat constructor.
Defined.

(** *** Lines that do not fit the buffer of the scanner *)

(** X7: a line of 65536 bytes or more ends the reading of the
    configuration file without an error: [loadHostConfig] returns what
    it returns for the file that holds the lines before this line
    only. *)
Theorem long_line_ends_load (fs fs' : filesys) (name name' : string)
    (f f' : file) (good rest : list string) (long : string) :
  fs !! name = Some f →
  fs' !! name' = Some f' →
  data f = bytes_of (good ++ long :: rest) →
  data f' = bytes_of good →
  Forall stable_line good →
  occurs (char 10) long = false →
  too_long long = true →
  loadHostConfig fs name = loadHostConfig fs' name'.
Proof.
  intros Hf Hf' E E' Hgood Hlf Hlong.
  unfold loadHostConfig, os_Open. rewrite Hf, Hf', E, E'.
  by rewrite ScanLines_long, ScanLines_bytes_of.
Qed.

Lemma long_line_ends_load_witness :
  loadHostConfig long_conf "dnspin.conf"
  = loadHostConfig short_conf "dnspin.conf".
Proof.
  refine (long_line_ends_load long_conf short_conf "dnspin.conf"
            "dnspin.conf" _ _ ["api.internal 10.0.0.53"]
            ["db.internal 10.0.0.53"] long_line
            eq_refl eq_refl eq_refl eq_refl _ _ _).
  - repeat constructor.
  - vm_compute. reflexivity.
  - vm_compute. reflexivity.
Defined.

(** *** What a region persists *)

Lemma comment_is_comment text : HasPrefix ("# " +:+ text) "#" = true.
Proof. reflexivity. Qed.

Lemma filter_write_host m host :
  writable m host →
  filter (λ l, HasPrefix l "#" = false) (write_host m [] host : list string)
  = match persisted m host with
    | Some ip => [mapping_line ip (hostname host)]
    | None => []
    end.
Proof.
  intros [Hname Hip].
  assert (∀ ip, persisted m host = Some ip →
            filter (λ l, HasPrefix l "#" = false)
              [mapping_line ip (hostname host)]
            = [mapping_line ip (hostname host)]) as Hkeep.
  { intros ip [[Hne _] Hc]%Hip.
    by rewrite filter_cons_True by (by apply mapping_line_no_comment). }
  destruct (decide (ip_address host = ERROR)) as [He|He].
  - assert (persisted m host = m !! hostname host) as Ep.
    { unfold persisted. by rewrite decide_True. }
    rewrite Ep in *. unfold write_host, Fprintln. rewrite decide_True by done.
    destruct (m !! hostname host) as [ip|]; cbn [app].
    + rewrite filter_cons_False
        by (unfold cached_comment; by rewrite comment_is_comment).
      by apply Hkeep.
    + rewrite filter_cons_False
        by (unfold error_comment; by rewrite comment_is_comment).
      done.
  - destruct (decide (ip_address host = MISSING)) as [Hm|Hm].
    + assert (persisted m host = None) as ->.
      { unfold persisted. rewrite decide_False by done.
        by rewrite decide_False by (by intros ?). }
      unfold write_host. rewrite decide_False by done.
      by rewrite decide_False by (by intros ?).
    + assert (persisted m host = Some (ip_address host)) as Ep.
      { unfold persisted. rewrite decide_False by done.
        by rewrite decide_True. }
      rewrite Ep. unfold write_host, Fprintln.
      rewrite decide_False by done. rewrite decide_True by done.
      cbn [app]. by apply Hkeep.
Qed.

Lemma parse_mappings_app lines lines' :
  parse_mappings (lines ++ lines')
  = fold_left parse_line lines' (parse_mappings lines).
Proof. unfold parse_mappings. by rewrite fold_left_app. Qed.

Lemma persisted_map_snoc m hosts host :
  persisted_map m (hosts ++ [host])
  = match persisted m host with
    | Some ip => <[hostname host := ip]> (persisted_map m hosts)
    | None => persisted_map m hosts
    end.
Proof. unfold persisted_map. by rewrite fold_left_app. Qed.

(** The parse of the lines of the entries that are not comments. *)
Lemma parse_entries m hosts :
  Forall (writable m) hosts →
  parse_mappings (filter (λ l, HasPrefix l "#" = false) (entries m hosts))
  = persisted_map m hosts.
Proof.
  induction hosts as [|h hosts IH] using rev_ind; intros H; [done|].
  apply Forall_app in H as [H1 H2%Forall_inv].
  rewrite entries_app, filter_app, parse_mappings_app, (IH H1).
  rewrite entries_cons. change (entries m []) with (@nil string).
  rewrite app_nil_r, filter_write_host, persisted_map_snoc by done.
  destruct H2 as [Hname Hip].
  destruct (persisted m h) as [ip|]; [|done].
  destruct (Hip ip eq_refl) as [Htok _].
  cbn [fold_left]. unfold parse_line. by rewrite Fields_mapping_line.
Qed.

Lemma persisted_map_other m hosts name :
  name ∉ map hostname hosts → persisted_map m hosts !! name = None.
Proof.
  induction hosts as [|h hosts IH] using rev_ind; intros H; [done|].
  rewrite map_app in H. simpl in H. rewrite persisted_map_snoc.
  assert (persisted_map m hosts !! name = None) as E.
  { apply IH. intros ?. apply H, elem_of_app. by left. }
  destruct (persisted m h); [|done].
  rewrite lookup_insert_ne; [done|].
  intros Heq. apply H, elem_of_app. right. rewrite <- Heq.
  by apply list_elem_of_singleton.
Qed.

Lemma persisted_map_lookup m hosts :
  NoDup (map hostname hosts) →
  ∀ host, host ∈ hosts →
    persisted_map m hosts !! hostname host = persisted m host.
Proof.
  induction hosts as [|h hosts IH] using rev_ind; intros H host Hin.
  - by apply elem_of_nil in Hin.
  - rewrite map_app in H. simpl in H.
    apply NoDup_app in H as (H1 & H2 & _).
    assert (hostname h ∉ map hostname hosts) as Hfresh.
    { intros Hh. apply (H2 _ Hh). by apply list_elem_of_singleton. }
    rewrite persisted_map_snoc.
    apply elem_of_app in Hin as [Hin| ->%list_elem_of_singleton].
    + assert (hostname h ≠ hostname host) as Hne.
      { intros E. apply Hfresh. rewrite E. by apply list_elem_of_fmap_2. }
      destruct (persisted m h).
      * rewrite lookup_insert_ne by done. by apply IH.
      * by apply IH.
    + destruct (persisted m h) as [ip|] eqn:E.
      * apply lookup_insert_eq.
      * by apply persisted_map_other.
Qed.

(** X8: what the managed region that a rewrite writes persists, host by
    host, when the names of the hosts and the addresses written are
    fields, no address starts like a comment and no name occurs twice.
    Read by the next run, the region maps the name of a resolved host to
    its address, the name of a host whose lookup failed to the address
    that the mappings of this run held for it, if any, so that a cached
    address survives the failure, and the name of a host without a
    record, or of a failed host without a cached address, to nothing;
    it maps no other name. *)
Theorem region_persists (pre : list string) (m : gmap string string)
    (hosts : list host_config) :
  Forall (λ l, ¬ sentinel l) pre →
  Forall (writable m) hosts →
  NoDup (map hostname hosts) →
  let m' := parse_mappings (pin_lines (scan_regions
              (pre ++ [DNSPIN_BEGIN] ++ entries m hosts ++ [DNSPIN_END]))) in
  (∀ host, host ∈ hosts →
     m' !! hostname host
     = if decide (ip_address host = ERROR) then m !! hostname host
       else if decide (ip_address host ≠ MISSING)
            then Some (ip_address host)
            else None)
  ∧ (∀ name, name ∉ map hostname hosts → m' !! name = None).
Proof.
  intros Hpre Hw Hnd m'. subst m'.
  rewrite scan_single_region by (done || apply entries_not_sentinel).
  cbn [pin_lines]. rewrite parse_entries by done. split.
  - intros host Hin. by rewrite persisted_map_lookup.
  - intros name Hname. by apply persisted_map_other.
Qed.

Lemma region_persists_witness :
  let m' := parse_mappings (pin_lines (scan_regions
              (["127.0.0.1 localhost"] ++ [DNSPIN_BEGIN]
               ++ entries former_mappings three_hosts ++ [DNSPIN_END]))) in
  m' !! "api.internal" = Some "203.0.113.5"
  ∧ m' !! "a" = Some "10.0.0.1"
  ∧ m' !! "gone.internal" = None.
Proof.
  assert (Forall (λ l, ¬ sentinel l) ["127.0.0.1 localhost"]) as Hpre.
  { repeat constructor. intros [E|E]; discriminate E. }
  assert (Forall (writable former_mappings) three_hosts) as Hw.
  { unfold three_hosts.
    constructor; [|constructor; [|constructor; [|constructor]]];
      (split; [split; [discriminate | reflexivity]|]);
      intros ip H; vm_compute in H;
      first [ discriminate H
            | injection H as <-;
              split; [split; [discriminate | reflexivity] | reflexivity] ]. }
  assert (NoDup (map hostname three_hosts)) as Hnd.
  { vm_compute. repeat constructor; intros H;
      repeat (apply elem_of_cons in H as [H|H]; [discriminate H|]);
      by apply elem_of_nil in H. }
  pose proof (proj1 (region_persists ["127.0.0.1 localhost"]
                       former_mappings three_hosts Hpre Hw Hnd)) as H.
  split; [exact (H api_host ltac:(repeat constructor))|].
  split; [exact (H failed_host ltac:(repeat constructor))|].
  exact (H missing_host ltac:(repeat constructor)).
Defined.

(** *** Names configured twice *)

Lemma mapping_of_lookup_in hosts name :
  name ∈ map hostname hosts → is_Some (mapping_of hosts !! name).
Proof.
  induction hosts as [|h hosts IH] using rev_ind; intros H.
  - by apply elem_of_nil in H.
  - rewrite map_app in H. simpl in H. rewrite mapping_of_snoc.
    destruct (decide (hostname h = name)) as [<-|Hne].
    + rewrite lookup_insert_eq. by eexists.
    + rewrite lookup_insert_ne by done. apply IH.
      apply elem_of_app in H as [H|H%list_elem_of_singleton]; [done|].
      by subst.
Qed.

Lemma mapping_of_size hosts :
  (size (mapping_of hosts) ≤ length hosts)%nat
  ∧ (¬ NoDup (map hostname hosts) →
     (size (mapping_of hosts) < length hosts)%nat).
Proof.
  induction hosts as [|h hosts [IH1 IH2]] using rev_ind.
  - split; [done|]. intros H. destruct H. constructor.
  - rewrite mapping_of_snoc, length_app, map_app. simpl.
    destruct (decide (hostname h ∈ map hostname hosts)) as [Hin|Hout].
    + rewrite map_size_insert_Some by by apply mapping_of_lookup_in.
      split; [lia|]. intros _. lia.
    + rewrite map_size_insert_None by by apply mapping_of_lookup_other.
      split; [lia|]. intros Hdup.
      assert (¬ NoDup (map hostname hosts)) as Hd.
      { intros Hnd. apply Hdup. apply NoDup_app. split; [done|].
        split; [|apply NoDup_singleton].
        intros x Hx ->%list_elem_of_singleton. done. }
      specialize (IH2 Hd). lia.
Qed.

(** X9: a name configured twice makes every run rewrite.  When a hosts
    file ends with the managed region written for resolved hosts of
    which two have the same name, a run for these hosts needs a rewrite
    again: the region maps fewer names than there are hosts. *)
Theorem repeated_name_rewrites (fs : filesys) (f : file)
    (pre : list string) (m0 : gmap string string)
    (hosts : list host_config) :
  fs !! "/etc/hosts" = Some f →
  ScanLines (data f)
  = pre ++ [DNSPIN_BEGIN] ++ entries m0 hosts ++ [DNSPIN_END] →
  Forall (λ l, ¬ sentinel l) pre →
  Forall resolved_entry hosts →
  ¬ NoDup (map hostname hosts) →
  (size (read_mappings (data f)) < length hosts)%nat
  ∧ needs_rewrite (read_mappings (data f)) hosts = true
  ∧ ∀ sys, (writeHostsFile sys fs hosts).1 ≠ (false, None).
Proof.
  intros Hf E Hpre Hres Hdup.
  assert (read_mappings (data f) = mapping_of hosts) as Em.
  { unfold read_mappings, read_regions.
    rewrite E, scan_resolved_region by done. by apply parse_resolved. }
  assert (size (read_mappings (data f)) < length hosts)%nat as Hlt.
  { rewrite Em. by apply mapping_of_size. }
  assert (needs_rewrite (read_mappings (data f)) hosts = true) as Hn.
  { apply needs_rewrite_true. left. lia. }
  split; [done|]. split; [done|]. intros sys.
  unfold writeHostsFile, os_Open. rewrite Hf.
  fold (read_regions (data f)). fold (read_mappings (data f)).
  rewrite Hn. simpl negb. cbv iota.
  unfold ioutil_TempFile, Chmod, Flush, os_Rename.
  repeat (match goal with
          | |- context [match ?x with _ => _ end] => destruct x
          end; try done).
Qed.

Lemma repeated_name_rewrites_witness :
  needs_rewrite
    (read_mappings (bytes_of (["127.0.0.1 localhost"] ++ [DNSPIN_BEGIN]
                              ++ entries ∅ twice_hosts ++ [DNSPIN_END])))
    twice_hosts = true.
Proof.
  refine (proj1 (proj2
            (repeated_name_rewrites
               {[ "/etc/hosts" :=
                    mk_file (bytes_of (["127.0.0.1 localhost"]
                                       ++ [DNSPIN_BEGIN]
                                       ++ entries ∅ twice_hosts
                                       ++ [DNSPIN_END])) 420 ]}
               _ ["127.0.0.1 localhost"] ∅ twice_hosts
               eq_refl eq_refl _ _ _))).
  - repeat constructor. intros [E|E]; discriminate E.
  - repeat constructor; vm_compute; congruence.
  - intros H. apply NoDup_cons in H as [H _]. apply H. by left.
Defined.

(** *** The cycles of main *)

Lemma resolve_names c host :
  hostname (resolve c host) = hostname host
  ∧ dns_server (resolve c host) = dns_server host.
Proof.
  unfold resolve.
  by destruct (lookupIP c (hostname host) (dns_server host)) as [ip [e|]].
Qed.

Lemma resolve_after c c0 host :
  resolve c (resolve c0 host) = resolve c host.
Proof.
  destruct (resolve_names c0 host) as [E1 E2].
  unfold resolve at 1. rewrite E1, E2. unfold resolve.
  by destruct (lookupIP c (hostname host) (dns_server host)) as [ip [e|]].
Qed.

(** X10: a cycle of [main] keeps no memory of the results of the cycle
    before.  The lookups leave the names and the servers of the hosts
    as they are, in order; and a cycle that starts from the hosts that
    a former cycle left, whatever the servers answered in that cycle
    and whatever it did, does what it does from the hosts as they were
    before that cycle: the results in memory do not count, only the
    answers of the servers in this cycle and the hosts file do. *)
Theorem cycle_forgets (c c0 : dns_client) (sys sys0 : syscalls)
    (fs fs0 : filesys) (hosts : list host_config) :
  map hostname (cycle c sys fs hosts).1 = map hostname hosts
  ∧ map dns_server (cycle c sys fs hosts).1 = map dns_server hosts
  ∧ cycle c sys fs (cycle c0 sys0 fs0 hosts).1 = cycle c sys fs hosts.
Proof.
  unfold cycle. cbn [fst]. split; [|split].
  - induction hosts as [|h hosts IH]; [done|].
    cbn [map]. rewrite IH. f_equal. apply resolve_names.
  - induction hosts as [|h hosts IH]; [done|].
    cbn [map]. rewrite IH. f_equal. apply resolve_names.
  - assert (map (resolve c) (map (resolve c0) hosts) = map (resolve c) hosts)
      as ->; [|done].
    induction hosts as [|h hosts IH]; [done|].
    cbn [map]. by rewrite resolve_after, IH.
Qed.

(** *** Hosts without an address *)

(** X11: a host without a record, or whose lookup failed, makes every
    run rewrite.  When a hosts file ends with the managed region that a
    run wrote for the hosts (names and written addresses being fields,
    no name twice), and one of the hosts has no record, or failed while
    the mappings of that run did not hold the marker of failure itself
    for it, a run for the same hosts needs a rewrite again. *)
Theorem unsettled_host_rewrites (fs : filesys) (f : file)
    (pre : list string) (m : gmap string string)
    (hosts : list host_config) (host : host_config) :
  fs !! "/etc/hosts" = Some f →
  ScanLines (data f)
  = pre ++ [DNSPIN_BEGIN] ++ entries m hosts ++ [DNSPIN_END] →
  Forall (λ l, ¬ sentinel l) pre →
  Forall (writable m) hosts →
  NoDup (map hostname hosts) →
  host ∈ hosts →
  last_result host = NoRecord
  ∨ (last_result host = LookupFailed ∧ m !! hostname host ≠ Some ERROR) →
  needs_rewrite (read_mappings (data f)) hosts = true
  ∧ ∀ sys, (writeHostsFile sys fs hosts).1 ≠ (false, None).
Proof.
  intros Hf E Hpre Hw Hnd Hin Hres.
  assert (read_mappings (data f) !! hostname host = persisted m host) as Em.
  { unfold read_mappings, read_regions.
    rewrite E, scan_single_region by (done || apply entries_not_sentinel).
    cbn [pin_lines]. rewrite parse_entries by done.
    by apply persisted_map_lookup. }
  assert (needs_rewrite (read_mappings (data f)) hosts = true) as Hn.
  { apply needs_rewrite_true. right. exists host. split; [done|].
    rewrite Em. unfold persisted.
    destruct Hres as [[He Hm]%no_record_marker|[He%lookup_failed_marker Hc]].
    - left. rewrite decide_False by done.
      by rewrite decide_False by (by intros ?).
    - rewrite decide_True by done.
      destruct (m !! hostname host) as [ip|]; [|by left].
      right. exists ip. split; [done|]. rewrite He. by intros ->. }
  split; [done|]. intros sys.
  unfold writeHostsFile, os_Open. rewrite Hf.
  fold (read_regions (data f)). fold (read_mappings (data f)).
  rewrite Hn. simpl negb. cbv iota.
  unfold ioutil_TempFile, Chmod, Flush, os_Rename.
  repeat (match goal with
          | |- context [match ?x with _ => _ end] => destruct x
          end; try done).
Qed.

Lemma unsettled_host_rewrites_witness :
  needs_rewrite
    (read_mappings (bytes_of (["127.0.0.1 localhost"] ++ [DNSPIN_BEGIN]
                              ++ entries former_mappings three_hosts
                              ++ [DNSPIN_END])))
    three_hosts = true.
Proof.
  assert (Forall (λ l, ¬ sentinel l) ["127.0.0.1 localhost"]) as Hpre.
  { repeat constructor. intros [E|E]; discriminate E. }
  assert (Forall (writable former_mappings) three_hosts) as Hw.
  { unfold three_hosts.
    constructor; [|constructor; [|constructor; [|constructor]]];
      (split; [split; [discriminate | reflexivity]|]);
      intros ip H; vm_compute in H;
      first [ discriminate H
            | injection H as <-;
              split; [split; [discriminate | reflexivity] | reflexivity] ]. }
  assert (NoDup (map hostname three_hosts)) as Hnd.
  { vm_compute. repeat constructor; intros H;
      repeat (apply elem_of_cons in H as [H|H]; [discriminate H|]);
      by apply elem_of_nil in H. }
  refine (proj1
            (unsettled_host_rewrites
               {[ "/etc/hosts" :=
                    mk_file (bytes_of (["127.0.0.1 localhost"]
                                       ++ [DNSPIN_BEGIN]
                                       ++ entries former_mappings three_hosts
                                       ++ [DNSPIN_END])) 420 ]}
               _ ["127.0.0.1 localhost"] former_mappings three_hosts
               missing_host eq_refl eq_refl Hpre Hw Hnd _ _)).
  - repeat constructor.
  - by left.
Defined.

(** *** The cached address of a failed host *)

Lemma write_host_failed m host :
  ip_address host = ERROR →
  write_host m [] host
  = match m !! hostname host with
    | Some ip => [cached_comment host; mapping_line ip (hostname host)]
    | None => [error_comment host]
    end.
Proof.
  intros He. unfold write_host, Fprintln. rewrite decide_True by done.
  by destruct (m !! hostname host).
Qed.

(** X12: the cached address of a failed host, from the file to the
    file.  On a hosts file that ends with its one managed region, with
    [m] the mappings of the lines of this region that are not comments,
    a run without failing call for hosts of which one failed writes, at
    the place of this host among the entries: the comment of a cached
    value and right after it the mapping line of the address that [m]
    holds for its name, when [m] holds one (other than the marker of
    failure); the comment of an error alone, when [m] holds none. *)
Theorem cached_fallback_written (sys : syscalls) (fs : filesys) (f : file)
    (name : string) (pre region : list string)
    (before after : list host_config) (host : host_config) :
  fs !! "/etc/hosts" = Some f →
  ScanLines (data f) = pre ++ [DNSPIN_BEGIN] ++ region ++ [DNSPIN_END] →
  Forall (λ l, ¬ sentinel l) pre →
  Forall (λ l, ¬ sentinel l) region →
  succeeds sys fs name →
  last_result host = LookupFailed →
  let m := parse_mappings (filter (λ l, HasPrefix l "#" = false) region) in
  let out := writeHostsFile sys fs (before ++ host :: after) in
  (∀ ip, m !! hostname host = Some ip → ip ≠ ERROR →
     out = ((true, None),
            <["/etc/hosts" :=
                mk_file (bytes_of (pre ++ [DNSPIN_BEGIN] ++ entries m before
                                   ++ [cached_comment host;
                                       mapping_line ip (hostname host)]
                                   ++ entries m after ++ [DNSPIN_END]))
                  420]> fs))
  ∧ (m !! hostname host = None →
     out = ((true, None),
            <["/etc/hosts" :=
                mk_file (bytes_of (pre ++ [DNSPIN_BEGIN] ++ entries m before
                                   ++ [error_comment host]
                                   ++ entries m after ++ [DNSPIN_END]))
                  420]> fs)).
Proof.
  intros Hf E Hpre Hreg Hok He%lookup_failed_marker m out.
  assert (read_regions (data f)
          = mk_regions POST_PIN pre
              (filter (λ l, HasPrefix l "#" = false) region) []) as Er.
  { unfold read_regions. rewrite E. by apply scan_single_region. }
  assert (read_mappings (data f) = m) as Em.
  { unfold read_mappings. by rewrite Er. }
  assert (∀ ls, write_host m [] host = ls →
            (m !! hostname host = None
             ∨ ∃ ip, m !! hostname host = Some ip ∧ ip ≠ ERROR) →
            out = ((true, None),
                   <["/etc/hosts" :=
                       mk_file (bytes_of (pre ++ [DNSPIN_BEGIN]
                                          ++ entries m before ++ ls
                                          ++ entries m after
                                          ++ [DNSPIN_END])) 420]> fs))
    as Hrun.
  { intros ls Hls Hm.
    assert (needs_rewrite (read_mappings (data f)) (before ++ host :: after)
            = true) as Hn.
    { apply needs_rewrite_true. right. exists host. split.
      - apply elem_of_app. right. by left.
      - rewrite Em, He. destruct Hm as [Hm|(ip & Hm & Hne)]; [by left|].
        right. by exists ip. }
    unfold out. rewrite (writeHostsFile_succeeds _ _ _ _ _ Hf Hn Hok).
    rewrite Em, Er, write_all_eq, entries_app, entries_cons, Hls.
    cbn [pre_lines post_lines]. by rewrite <- !app_assoc, app_nil_r. }
  split.
  - intros ip Hip Hne. apply Hrun.
    + by rewrite write_host_failed, Hip.
    + right. by exists ip.
  - intros Hnone. apply Hrun.
    + by rewrite write_host_failed, Hnone.
    + by left.
Qed.

Lemma cached_fallback_written_witness :
  data <$> (writeHostsFile (ok_sys "123") pinned_a [failed_host]).2
             !! "/etc/hosts"
  = Some (bytes_of ["127.0.0.1 localhost"; DNSPIN_BEGIN;
                    "# a: cached value, error during lookup to 10.0.0.53";
                    mapping_line "10.0.0.1" "a"; DNSPIN_END]).
Proof.
  assert (Forall (λ l, ¬ sentinel l) ["127.0.0.1 localhost"]) as Hpre.
  { repeat constructor. intros [E|E]; discriminate E. }
  assert (Forall (λ l, ¬ sentinel l) [mapping_line "10.0.0.1" "a"]) as Hreg.
  { repeat constructor. intros [E|E]; discriminate E. }
  assert (succeeds (ok_sys "123") pinned_a "/tmp/hosts123") as Hok.
  { split; [by exists "123"|]. by repeat split. }
  pose proof (proj1 (cached_fallback_written (ok_sys "123") pinned_a _
                       "/tmp/hosts123" ["127.0.0.1 localhost"]
                       [mapping_line "10.0.0.1" "a"] [] [] failed_host
                       eq_refl eq_refl Hpre Hreg Hok eq_refl)
                "10.0.0.1" eq_refl ltac:(discriminate)) as H.
  exact (f_equal (λ o : (bool * option error) * filesys,
                    data <$> o.2 !! "/etc/hosts") H).
Defined.
